(** * xapi-lrs-auth-proxy: request-path pipeline

    A shallow embedding of the Go packages [models], [validator],
    [middleware] and [handlers] of the proxy, and the properties of the
    permission evaluator, the token verifier and the HTTP handlers that the
    specification states about them.

    Conventions.
    - A Go [string] is a [string]; the zero value is the empty string, so a
      JSON key that is absent and a key that is present with the value [""]
      decode to the same field value.
    - A Go pointer field that may be [nil] ([*Account], [*Group],
      [*Context]) is an [option].
    - A Go [error] is an [option string]: [None] is [nil], [Some msg] is an
      error whose [Error()] text is [msg].
    - A [map[string]string] is a [gmap string string]; indexing a missing
      key gives the zero value [""]. *)

From Stdlib Require Import ZArith Ascii String DecimalString.
From stdpp Require Import gmap strings list.

Local Open Scope Z_scope.

(** ** Go runtime and standard library *)

Module Go.

(** [error]: [None] is [nil]. *)
Definition error := option string.

(** [fmt.Errorf] with a message that is already formatted. *)
Definition Errorf (msg : string) : error := Some msg.

(** [s != ""] *)
Definition nonEmpty (s : string) : bool := negb (String.eqb s "").

(** The line feed that [fmt.Fprintln] appends. *)
Definition LF : string := String (ascii_of_nat 10) EmptyString.

(** [strings.Contains(s, substr)]: [substr] occurs in [s] at some offset.
    The empty string occurs in every string. *)
Fixpoint Contains (s substr : string) : bool :=
  String.prefix substr s
  || match s with
     | EmptyString => false
     | String _ rest => Contains rest substr
     end.

(** [%d] of a non-negative [int]. *)
Definition itoa (n : nat) : string := NilZero.string_of_uint (Nat.to_uint n).

(** [m[k]] on a [map[string]string]. *)
Definition index (m : gmap string string) (k : string) : string :=
  default "" (m !! k).

(** [strings.SplitN(s, " ", 2)]: cut at the first space, if there is
    one. *)
Fixpoint cutSpace (s : string) : option (string * string) :=
  match s with
  | EmptyString => None
  | String c rest =>
      if Ascii.eqb c " "%char then Some (EmptyString, rest)
      else match cutSpace rest with
           | Some (a, b) => Some (String c a, b)
           | None => None
           end
  end.

Definition SplitN2 (s : string) : list string :=
  match cutSpace s with
  | Some (a, b) => [a; b]
  | None => [s]
  end.

(** What an [int64] keeps of the integer [z]: Go's signed arithmetic
    wraps around in two's complement. *)
Definition int64 (z : Z) : Z := (z + 2 ^ 63) mod 2 ^ 64 - 2 ^ 63.

End Go.

(** ** [time] as the proxy uses it

    A [time.Duration] is an [int64] count of nanoseconds.  A [time.Time]
    is the count of nanoseconds that separates the instant from the Unix
    epoch. *)

Module time.

Definition Second : Z := 1000000000.

(** [a * b] on two [time.Duration]s: an [int64] product. *)
Definition times (a b : Z) : Z := Go.int64 (a * b).

(** [t.Add(d)].  Go saturates the sum only where its seconds leave
    [int64], 292 billion years away from the epoch; a reading of the clock
    and a duration, which spans less than 293 years, stay far from
    there. *)
Definition Add (t d : Z) : Z := t + d.

(** [t.Unix()]: the whole seconds between the epoch and [t], rounded
    down. *)
Definition Unix (t : Z) : Z := t / Second.

End time.

(** ** Package [models] *)

(** A decoded JSON value, for the [map[string]interface{}] fields that the
    proxy carries along and never inspects. *)
#[local] Unset Elimination Schemes.
Inductive JSONValue : Type :=
| JNull
| JBool (b : bool)
| JNumber (literal : string)
| JString (s : string)
| JArray (items : list JSONValue)
| JObject (fields : list (string * JSONValue)).
#[local] Set Elimination Schemes.

Module Account.
Record t := mk { HomePage : string; Name : string }.
End Account.

Module Actor.

Record t := mk {
  ObjectType : string;
  Name : string;
  Mbox : string;
  MboxSHA1 : string;
  OpenID : string;
  Account : option Account.t
}.

(** [func (a *Actor) Equals(other Actor) bool] *)
Definition Equals (a other : t) : bool :=
  if Go.nonEmpty (Mbox a) && Go.nonEmpty (Mbox other) then
    String.eqb (Mbox a) (Mbox other)
  else if Go.nonEmpty (MboxSHA1 a) && Go.nonEmpty (MboxSHA1 other) then
    String.eqb (MboxSHA1 a) (MboxSHA1 other)
  else if Go.nonEmpty (OpenID a) && Go.nonEmpty (OpenID other) then
    String.eqb (OpenID a) (OpenID other)
  else
    match Account a, Account other with
    | Some x, Some y =>
        String.eqb (Account.HomePage x) (Account.HomePage y)
        && String.eqb (Account.Name x) (Account.Name y)
    | _, _ => false
    end.

(** The zero value [Actor{}]. *)
Definition zero : t := mk "" "" "" "" "" None.

End Actor.

Module Group.

Record t := mk {
  ObjectType : string;
  Name : string;
  Member : list Actor.t
}.

(** [func (g *Group) IsMember(actor Actor) bool] *)
Fixpoint anyEquals (members : list Actor.t) (actor : Actor.t) : bool :=
  match members with
  | [] => false
  | member :: rest =>
      if Actor.Equals member actor then true else anyEquals rest actor
  end.

Definition IsMember (g : t) (actor : Actor.t) : bool :=
  anyEquals (Member g) actor.

End Group.

Module Permissions.
Record t := mk { Write : string; Read : string }.
End Permissions.

Module Verb.
Record t := mk { ID : string; Display : list (string * string) }.
End Verb.

Module Object.
Record t := mk {
  ObjectType : string;
  ID : string;
  Definition_ : list (string * JSONValue)
}.
End Object.

Module Context.
Record t := mk {
  Registration : string;
  Instructor : option Actor.t;
  Team : option Group.t;
  Extensions : list (string * JSONValue)
}.
End Context.

Module Statement.
Record t := mk {
  ID : string;
  Actor : Actor.t;
  Verb : Verb.t;
  Object : Object.t;
  Context : option Context.t;
  Result : list (string * JSONValue)
}.
End Statement.

(** [jwt.RegisteredClaims], the fields the proxy sets; dates are seconds
    since the epoch. *)
Module RegisteredClaims.
Record t := mk {
  ExpiresAt : Z;
  IssuedAt : Z;
  Issuer : string;
  Subject : string
}.
End RegisteredClaims.

Module Claims.
Record t := mk {
  TenantID : string;
  Actor : Actor.t;
  Registration : string;
  ActivityID : string;
  CourseID : string;
  Permissions : Permissions.t;
  Group : option Group.t;
  Metadata : list (string * JSONValue);
  Registered : RegisteredClaims.t
}.
End Claims.

Module TokenRequest.
Record t := mk {
  Actor : Actor.t;
  Registration : string;
  ActivityID : string;
  CourseID : string;
  Permissions : Permissions.t;
  Group : option Group.t;
  Metadata : list (string * JSONValue)
}.
End TokenRequest.

(** [models.TokenResponse]; [ExpiresAt] is a [time.Time]. *)
Module TokenResponse.
Record t := mk { Token : string; ExpiresAt : Z }.
End TokenResponse.

Module models.

(** The keys of the [validScopes] map literal of [ValidatePermission]. *)
Definition validScopes : gset string :=
  {[ "actor-activity-registration-scoped";
     "actor-course-registration-scoped";
     "actor-activity-all-registrations";
     "actor-cross-course-certification";
     "group-activity-registration-scoped";
     "course-aggregate-only";
     "course-peer-shared";
     "false" ]}.

(** [func ValidatePermission(scope string) error] *)
Definition ValidatePermission (scope : string) : Go.error :=
  if bool_decide (scope ∈ validScopes) then None
  else Go.Errorf ("invalid permission scope: " +:+ scope).

(** The [levels] map literal of [PermissionLevel]. *)
Definition levels : gmap string Z :=
  list_to_map
    [ ("false", 0);
      ("actor-activity-registration-scoped", 1);
      ("actor-course-registration-scoped", 2);
      ("actor-activity-all-registrations", 3);
      ("group-activity-registration-scoped", 3);
      ("actor-cross-course-certification", 4);
      ("course-peer-shared", 5);
      ("course-aggregate-only", 6) ].

(** [func PermissionLevel(scope string) int]: indexing a missing key gives
    the zero value. *)
Definition PermissionLevel (scope : string) : Z := default 0 (levels !! scope).


End models.

(** ** Package [validator] (src/permissions.go) *)

Module validator.

(** [type PermissionValidator struct { policy string }] *)
Record PermissionValidator := mk { policy : string }.

Definition NewPermissionValidator (policy : string) : PermissionValidator :=
  mk policy.

(** The check repeated in every actor-scoped read validator and in
    [ValidateStateAccess]:
    [!strings.Contains(agent, claims.Actor.Mbox) &&
     !strings.Contains(agent, claims.Actor.OpenID)]. *)
Definition agentMismatch (claims : Claims.t) (agent : string) : bool :=
  negb (Go.Contains agent (Actor.Mbox (Claims.Actor claims)))
  && negb (Go.Contains agent (Actor.OpenID (Claims.Actor claims))).

(** [stmt.Context == nil || stmt.Context.Registration != claims.Registration] *)
Definition registrationMismatch (claims : Claims.t) (stmt : Statement.t) : bool :=
  match Statement.Context stmt with
  | None => true
  | Some ctx =>
      negb (String.eqb (Context.Registration ctx) (Claims.Registration claims))
  end.

Section Write.

(** [%v] of an [Actor] and of a [*Context] in the error texts.  Go
    prints the pointer fields nested in these values as addresses, so
    the rendering is left to the environment. *)
Variable fmtActor : Actor.t -> string.
Variable fmtContext : option Context.t -> string.

Definition validateActorActivityRegistration
    (v : PermissionValidator) (claims : Claims.t) (stmt : Statement.t)
    (op : string) : Go.error :=
  (* Actor must match *)
  if negb (Actor.Equals (Claims.Actor claims) (Statement.Actor stmt)) then
    Go.Errorf (op +:+ " denied: actor mismatch (expected "
                  +:+ fmtActor (Claims.Actor claims) +:+ ", got "
                  +:+ fmtActor (Statement.Actor stmt) +:+ ")")
  (* Activity must match *)
  else if negb (String.eqb (Object.ID (Statement.Object stmt))
                           (Claims.ActivityID claims)) then
    Go.Errorf (op +:+ " denied: activity mismatch (expected "
                  +:+ Claims.ActivityID claims +:+ ", got "
                  +:+ Object.ID (Statement.Object stmt) +:+ ")")
  (* Registration must match *)
  else if registrationMismatch claims stmt then
    Go.Errorf (op +:+ " denied: registration mismatch (expected "
                  +:+ Claims.Registration claims +:+ ", got "
                  +:+ fmtContext (Statement.Context stmt) +:+ ")")
  else None.

Definition validateGroupActivityRegistration
    (v : PermissionValidator) (claims : Claims.t) (stmt : Statement.t)
    : Go.error :=
  (* Statement must use Group actor *)
  if negb (String.eqb (Actor.ObjectType (Statement.Actor stmt)) "Group") then
    Go.Errorf "write denied: group actor required"
  else
    (* Group must match authorized group *)
    match Claims.Group claims with
    | None => Go.Errorf "write denied: group mismatch"
    | Some g =>
        if negb (String.eqb (Actor.Name (Statement.Actor stmt)) (Group.Name g)) then
          Go.Errorf "write denied: group mismatch"
        (* Requesting actor must be a group member *)
        else if negb (Group.IsMember g (Claims.Actor claims)) then
          Go.Errorf "write denied: actor not a member of group"
        (* Activity must match *)
        else if negb (String.eqb (Object.ID (Statement.Object stmt))
                                 (Claims.ActivityID claims)) then
          Go.Errorf "write denied: activity mismatch"
        (* Registration must match *)
        else if registrationMismatch claims stmt then
          Go.Errorf "write denied: registration mismatch"
        else None
    end.

(** [func (v *PermissionValidator) ValidateWrite(claims, stmt) error] *)
Definition ValidateWrite
    (v : PermissionValidator) (claims : Claims.t) (stmt : Statement.t)
    : Go.error :=
  let scope := Permissions.Write (Claims.Permissions claims) in
  (* No write permission *)
  if String.eqb scope "false" then
    Go.Errorf "write permission denied"
  else if String.eqb scope "actor-activity-registration-scoped" then
    validateActorActivityRegistration v claims stmt "write"
  else if String.eqb scope "group-activity-registration-scoped" then
    validateGroupActivityRegistration v claims stmt
  else
    Go.Errorf ("unsupported write permission scope: " +:+ scope).

End Write.

Definition validateActorActivityRegistrationRead
    (v : PermissionValidator) (claims : Claims.t) (query : gmap string string)
    : Go.error :=
  let agent := Go.index query "agent" in
  let activity := Go.index query "activity" in
  let reg := Go.index query "registration" in
  (* If agent specified in query, must match *)
  if Go.nonEmpty agent && agentMismatch claims agent then
    Go.Errorf "read denied: agent mismatch"
  (* If activity specified, must match *)
  else if Go.nonEmpty activity
          && negb (String.eqb activity (Claims.ActivityID claims)) then
    Go.Errorf "read denied: activity mismatch"
  (* If registration specified, must match *)
  else if Go.nonEmpty reg
          && negb (String.eqb reg (Claims.Registration claims)) then
    Go.Errorf "read denied: registration mismatch"
  else None.

Definition validateActorCourseRegistrationRead
    (v : PermissionValidator) (claims : Claims.t) (query : gmap string string)
    : Go.error :=
  let agent := Go.index query "agent" in
  let reg := Go.index query "registration" in
  (* Actor must match (if specified) *)
  if Go.nonEmpty agent && agentMismatch claims agent then
    Go.Errorf "read denied: agent mismatch"
  (* Registration must match (if specified) *)
  else if Go.nonEmpty reg
          && negb (String.eqb reg (Claims.Registration claims)) then
    Go.Errorf "read denied: registration mismatch"
  (* Activity can be any in course *)
  else None.

Definition validateActorActivityAllRegistrationsRead
    (v : PermissionValidator) (claims : Claims.t) (query : gmap string string)
    : Go.error :=
  let agent := Go.index query "agent" in
  let activity := Go.index query "activity" in
  (* Actor must match *)
  if Go.nonEmpty agent && agentMismatch claims agent then
    Go.Errorf "read denied: agent mismatch"
  (* Activity must match (if specified) *)
  else if Go.nonEmpty activity
          && negb (String.eqb activity (Claims.ActivityID claims)) then
    Go.Errorf "read denied: activity mismatch"
  (* Registration can be any *)
  else None.

Definition validateGroupActivityRegistrationRead
    (v : PermissionValidator) (claims : Claims.t) (query : gmap string string)
    : Go.error :=
  let activity := Go.index query "activity" in
  let reg := Go.index query "registration" in
  (* Activity must match (if specified) *)
  if Go.nonEmpty activity
     && negb (String.eqb activity (Claims.ActivityID claims)) then
    Go.Errorf "read denied: activity mismatch"
  (* Registration must match (if specified) *)
  else if Go.nonEmpty reg
          && negb (String.eqb reg (Claims.Registration claims)) then
    Go.Errorf "read denied: registration mismatch"
  else None.

(** [func (v *PermissionValidator) ValidateRead(claims, query) error] *)
Definition ValidateRead
    (v : PermissionValidator) (claims : Claims.t) (query : gmap string string)
    : Go.error :=
  let scope := Permissions.Read (Claims.Permissions claims) in
  (* No read permission *)
  if String.eqb scope "false" then
    Go.Errorf "read permission denied"
  else if String.eqb scope "actor-activity-registration-scoped" then
    validateActorActivityRegistrationRead v claims query
  else if String.eqb scope "actor-course-registration-scoped" then
    validateActorCourseRegistrationRead v claims query
  else if String.eqb scope "actor-activity-all-registrations" then
    validateActorActivityAllRegistrationsRead v claims query
  else if String.eqb scope "group-activity-registration-scoped" then
    validateGroupActivityRegistrationRead v claims query
  else if String.eqb (policy v) "permissive" then
    (* In permissive mode, allow unknown scopes *)
    None
  else
    Go.Errorf ("unsupported read permission scope: " +:+ scope).

(** [func (v *PermissionValidator) ValidateStateAccess(claims, activityID,
    agent, registration) error] *)
Definition ValidateStateAccess
    (v : PermissionValidator) (claims : Claims.t)
    (activityID agent registration : string) : Go.error :=
  (* Actor must match *)
  if agentMismatch claims agent then
    Go.Errorf "state access denied: agent mismatch"
  else
    (* Activity must match (for default scope) *)
    let scope := Permissions.Read (Claims.Permissions claims) in
    if String.eqb scope "actor-activity-registration-scoped" then
      if negb (String.eqb activityID (Claims.ActivityID claims)) then
        Go.Errorf "state access denied: activity mismatch"
      else if negb (String.eqb registration (Claims.Registration claims)) then
        Go.Errorf "state access denied: registration mismatch"
      else None
    else None.

End validator.

(** ** Package [store]: the tenant configuration *)

Module TenantConfig.
Record t := mk {
  TenantID : string;
  Hosts : list string;
  LRSEndpoint : string;
  LRSUsername : string;
  LRSPassword : string;
  JWTSecret : string;
  JWTTTLSeconds : Z;
  LMSAPIKeys : gmap string bool;
  PermissionPolicy : string
}.
End TenantConfig.

(** ** [net/http] as the handlers use it

    A [[]byte] body is a [string] (a sequence of 8-bit characters). *)

Module http.

Definition StatusOK : Z := 200.
Definition StatusBadRequest : Z := 400.
Definition StatusUnauthorized : Z := 401.
Definition StatusForbidden : Z := 403.
Definition StatusMethodNotAllowed : Z := 405.
Definition StatusInternalServerError : Z := 500.
Definition StatusBadGateway : Z := 502.

(** What a handler wrote to its [http.ResponseWriter]. *)
Record Response := mkResponse {
  StatusCode : Z;
  RespHeader : gmap string (list string);
  RespBody : string
}.

(** An inbound request.  [Query] is [r.URL.Query()], [Body] is the result
    of [io.ReadAll(r.Body)], [None] when the read fails.  [Header] is
    [r.Header], as the server fills it: each key in its canonical form
    ([Authorization], [X-Experience-Api-Version]), with the values that
    the request gave it, at least one. *)
Record Request := mkRequest {
  Method : string;
  Path : string;
  RawQuery : string;
  Query : gmap string (list string);
  Header : gmap string (list string);
  Body : option string
}.

(** The request that [forwardToLRS] hands to [client.Do]; [ReqBody] is
    [None] when the handler passes a [nil] body. *)
Record UpstreamRequest := mkUpstream {
  ReqMethod : string;
  URL : string;
  ReqHeader : gmap string (list string);
  BasicAuth : string * string;
  ReqBody : option string
}.

(** [Values.Get] and [Header.Get]: the first value of the key, or [""]. *)
Definition Get (m : gmap string (list string)) (key : string) : string :=
  match m !! key with
  | Some (v :: _) => v
  | _ => ""
  end.

(** [http.Error(w, error, code)] *)
Definition Error (error : string) (code : Z) : Response :=
  mkResponse code
    (<["Content-Type" := (["text/plain; charset=utf-8"])]>
       (<["X-Content-Type-Options" := (["nosniff"])]> ∅))
    (error +:+ Go.LF).

(** [textproto]: the bytes of a header field name (an RFC 7230 token). *)
Definition isDigit (c : ascii) : bool :=
  (48 <=? nat_of_ascii c)%nat && (nat_of_ascii c <=? 57)%nat.
Definition isUpper (c : ascii) : bool :=
  (65 <=? nat_of_ascii c)%nat && (nat_of_ascii c <=? 90)%nat.
Definition isLower (c : ascii) : bool :=
  (97 <=? nat_of_ascii c)%nat && (nat_of_ascii c <=? 122)%nat.

Definition validHeaderFieldByte (c : ascii) : bool :=
  isDigit c || isLower c || isUpper c
  || existsb (Ascii.eqb c) (list_ascii_of_string "!#$%&'*+-.^_`|~").

(** The loop of [canonicalMIMEHeaderKey]: upper case for the first letter
    and for a letter that follows a dash, lower case for the others;
    [toLower] is the distance ['a' - 'A']. *)
Definition toLower : nat := 32.

Fixpoint canonicalize (upper : bool) (a : string) : string :=
  match a with
  | EmptyString => EmptyString
  | String c rest =>
      let c :=
        if upper && isLower c then ascii_of_nat (nat_of_ascii c - toLower)
        else if negb upper && isUpper c then
          ascii_of_nat (nat_of_ascii c + toLower)
        else c in
      String c (canonicalize (Ascii.eqb c "-"%char) rest)
  end.

(** [textproto.CanonicalMIMEHeaderKey(s)]: a key that holds a byte which
    no field name may hold is returned as it is. *)
Definition CanonicalMIMEHeaderKey (s : string) : string :=
  if forallb validHeaderFieldByte (list_ascii_of_string s) then
    canonicalize true s
  else s.

(** [Header.Get(key)] and [Header.Set(key, value)] look [key] up and file
    [value] under its canonical form. *)
Definition HeaderGet (h : gmap string (list string)) (key : string)
    : string :=
  Get h (CanonicalMIMEHeaderKey key).

Definition HeaderSet (h : gmap string (list string)) (key value : string)
    : gmap string (list string) :=
  <[CanonicalMIMEHeaderKey key := [value]]> h.

End http.

(** ** [github.com/golang-jwt/jwt/v5] as the proxy uses it *)

Module jwt.

Inductive SigningMethod :=
| SigningMethodHMAC (alg : string)
| SigningMethodOther (alg : string).

(** A parsed token: its method, whether its [Claims] value has the
    dynamic type [*models.Claims] (then [Some]), and [Valid]. *)
Record Token := mkToken {
  Method : SigningMethod;
  TokenClaims : option Claims.t;
  Valid : bool
}.

Definition ErrSignatureInvalid : string := "signature is invalid".

(** [jwt.Keyfunc]: the key to verify with, or an error. *)
Definition Keyfunc := Token -> string + string.

(** [jwt.NewNumericDate(t)]: [t] truncated to [jwt.TimePrecision], one
    second; the claim is written as the [Unix()] seconds of the result. *)
Definition NewNumericDate (t : Z) : Z := time.Unix t.

End jwt.

(** ** Package [config] (src/internal/config/config.go)

    A Go [int] is a [Z]. *)

Module ServerConfig.
Record t := mk { Port : Z; Host : string }.
End ServerConfig.

Module LRSConfig.
Record t := mk {
  Endpoint : string;
  Username : string;
  Password : string;
  ConnectionTimeout : Z;
  MaxRetries : Z
}.
End LRSConfig.

Module AuthConfig.
Record t := mk {
  JWTSecret : string;
  JWTTTLSeconds : Z;
  LMSAPIKeys : list string;
  PermissionPolicy : string
}.
End AuthConfig.

Module DatabaseConfig.
Record t := mk {
  Host : string;
  Port : Z;
  Database : string;
  Username : string;
  Password : string;
  SSLMode : string
}.
End DatabaseConfig.

Module RedisConfig.
Record t := mk {
  Host : string;
  Port : Z;
  Password : string;
  DB : Z;
  CacheTTL : Z
}.
End RedisConfig.

Module Config.
Record t := mk {
  Mode : string;
  Server : ServerConfig.t;
  LRS : LRSConfig.t;
  Auth : AuthConfig.t;
  Database : DatabaseConfig.t;
  Redis : RedisConfig.t
}.
End Config.

Module config.

(** [if v == 0 { v = d }] and [if v == "" { v = d }] *)
Definition orInt (v d : Z) : Z := if Z.eqb v 0 then d else v.
Definition orString (v d : string) : string := if String.eqb v "" then d else v.

(** The "Set defaults" block of [Load]. *)
Definition setDefaults (cfg : Config.t) : Config.t :=
  let server := Config.Server cfg in
  let lrs := Config.LRS cfg in
  let auth := Config.Auth cfg in
  let database := Config.Database cfg in
  let redis := Config.Redis cfg in
  Config.mk (Config.Mode cfg)
    (ServerConfig.mk (orInt (ServerConfig.Port server) 8080)
       (ServerConfig.Host server))
    (LRSConfig.mk (LRSConfig.Endpoint lrs) (LRSConfig.Username lrs)
       (LRSConfig.Password lrs)
       (orInt (LRSConfig.ConnectionTimeout lrs) 30)
       (orInt (LRSConfig.MaxRetries lrs) 3))
    (AuthConfig.mk (AuthConfig.JWTSecret auth)
       (orInt (AuthConfig.JWTTTLSeconds auth) 3600)
       (AuthConfig.LMSAPIKeys auth)
       (orString (AuthConfig.PermissionPolicy auth) "strict"))
    (DatabaseConfig.mk (DatabaseConfig.Host database)
       (orInt (DatabaseConfig.Port database) 5432)
       (DatabaseConfig.Database database) (DatabaseConfig.Username database)
       (DatabaseConfig.Password database)
       (orString (DatabaseConfig.SSLMode database) "require"))
    (RedisConfig.mk (RedisConfig.Host redis)
       (orInt (RedisConfig.Port redis) 6379)
       (RedisConfig.Password redis) (RedisConfig.DB redis)
       (orInt (RedisConfig.CacheTTL redis) 300)).

Section Load.

(** [os.ReadFile], [yaml.Unmarshal] into a zero [Config], and
    [os.ExpandEnv]; [inr] carries the error text. *)
Variable ReadFile : string -> string + string.
Variable yamlUnmarshal : string -> Config.t + string.
Variable ExpandEnv : string -> string.

(** [func expandEnv(s string) string] *)
Definition expandEnv (s : string) : string := ExpandEnv s.

(** The "Expand environment variables" block of [Load]. *)
Definition expandSecrets (cfg : Config.t) : Config.t :=
  let lrs := Config.LRS cfg in
  let auth := Config.Auth cfg in
  let database := Config.Database cfg in
  let redis := Config.Redis cfg in
  Config.mk (Config.Mode cfg) (Config.Server cfg)
    (LRSConfig.mk (LRSConfig.Endpoint lrs) (LRSConfig.Username lrs)
       (expandEnv (LRSConfig.Password lrs))
       (LRSConfig.ConnectionTimeout lrs) (LRSConfig.MaxRetries lrs))
    (AuthConfig.mk (expandEnv (AuthConfig.JWTSecret auth))
       (AuthConfig.JWTTTLSeconds auth) (AuthConfig.LMSAPIKeys auth)
       (AuthConfig.PermissionPolicy auth))
    (DatabaseConfig.mk (DatabaseConfig.Host database)
       (DatabaseConfig.Port database) (DatabaseConfig.Database database)
       (DatabaseConfig.Username database)
       (expandEnv (DatabaseConfig.Password database))
       (DatabaseConfig.SSLMode database))
    (RedisConfig.mk (RedisConfig.Host redis) (RedisConfig.Port redis)
       (expandEnv (RedisConfig.Password redis))
       (RedisConfig.DB redis) (RedisConfig.CacheTTL redis)).

(** [func Load(filename string)]: the configuration, or the error. *)
Definition Load (filename : string) : Config.t + string :=
  match ReadFile filename with
  | inr err => inr ("failed to read config file: " +:+ err)
  | inl data =>
      match yamlUnmarshal data with
      | inr err => inr ("failed to parse config file: " +:+ err)
      | inl cfg => inl (expandSecrets (setDefaults cfg))
      end
  end.

End Load.

(** [func (c *Config) Validate() error] *)
Definition Validate (c : Config.t) : Go.error :=
  if String.eqb (Config.Mode c) "single-tenant" then
    if String.eqb (LRSConfig.Endpoint (Config.LRS c)) "" then
      Go.Errorf "LRS endpoint is required in single-tenant mode"
    else if String.eqb (AuthConfig.JWTSecret (Config.Auth c)) "" then
      Go.Errorf "JWT secret is required"
    else if Nat.eqb (length (AuthConfig.LMSAPIKeys (Config.Auth c))) 0 then
      Go.Errorf "at least one LMS API key is required"
    else None
  else None.

End config.

(** ** Package [store]: the tenant stores

    The stores are modelled sequentially: the [sync.RWMutex] of each store
    is left out, and an operation that changes the cache returns the new
    store. *)

Module store.

(** [type TenantStore interface]: a lookup returns the store after the
    call and the tenant or the error text. *)
Class TenantStore (S : Type) := {
  GetByHost : S -> string -> S * (TenantConfig.t + string);
  GetByID : S -> string -> S * (TenantConfig.t + string)
}.

(** The loop [for _, key := range keys { apiKeys[key] = true }]. *)
Definition enableKeys (keys : list string) : gmap string bool :=
  fold_left (fun apiKeys key => <[key := true]> apiKeys) keys ∅.

(** [type SingleTenantStore struct] *)
Record SingleTenantStore := mkSingle { config : TenantConfig.t }.

(** [func NewSingleTenantStore(cfg *config.Config)]: the store, or the
    error of [cfg.Validate()]. *)
Definition NewSingleTenantStore (cfg : Config.t) : SingleTenantStore + string :=
  match config.Validate cfg with
  | Some err => inr err
  | None =>
      inl (mkSingle
             (TenantConfig.mk "default" ["*"]
                (LRSConfig.Endpoint (Config.LRS cfg))
                (LRSConfig.Username (Config.LRS cfg))
                (LRSConfig.Password (Config.LRS cfg))
                (AuthConfig.JWTSecret (Config.Auth cfg))
                (AuthConfig.JWTTTLSeconds (Config.Auth cfg))
                (enableKeys (AuthConfig.LMSAPIKeys (Config.Auth cfg)))
                (AuthConfig.PermissionPolicy (Config.Auth cfg))))
  end.

(** [SingleTenantStore.GetByHost] and [GetByID] ignore their argument. *)
#[global] Instance singleTenantStore : TenantStore SingleTenantStore := {
  GetByHost s host := (s, inl (config s));
  GetByID s tenantID := (s, inl (config s))
}.

(** [database/sql]: the answer to a [QueryRowContext(...).Scan(...)], and
    the answer to a [QueryContext] that is then scanned row by row
    ([inr] is the query's error, a row is the scanned value or the scan's
    error). *)
Inductive QueryRow (A : Type) :=
| Row (a : A)
| ErrNoRows
| QueryFailed (msg : string).
Arguments Row {A} a.
Arguments ErrNoRows {A}.
Arguments QueryFailed {A} msg.

Definition Rows (A : Type) : Type := list (A + string) + string.

(** The error that [Scan] returns, if any. *)
Definition scanRow {A} (q : QueryRow A) : A + string :=
  match q with
  | Row a => inl a
  | ErrNoRows => inr "sql: no rows in result set"
  | QueryFailed msg => inr msg
  end.

(** The loop [for rows.Next() { if err := rows.Scan(&x); err != nil {
    return nil, err }; ... }]: the scanned values in order, or the first
    scan error. *)
Fixpoint scanAll {A} (rows : list (A + string)) : list A + string :=
  match rows with
  | [] => inl []
  | inr err :: _ => inr err
  | inl a :: rest =>
      match scanAll rest with
      | inl scanned => inl (a :: scanned)
      | inr err => inr err
      end
  end.

(** The database as the store sees it during one call: the answer to each
    of its statements. *)
Record DB := mkDB {
  (** SELECT tenant_id FROM tenant_hosts WHERE host = $1 *)
  selectTenantID : string -> QueryRow string;
  (** SELECT endpoint, username, password FROM tenant_lrs_config
      WHERE tenant_id = $1 *)
  selectLRSConfig : string -> QueryRow (string * string * string);
  (** SELECT jwt_secret, jwt_ttl_seconds, permission_policy
      FROM tenant_auth_config WHERE tenant_id = $1 *)
  selectAuthConfig : string -> QueryRow (string * Z * string);
  (** SELECT host FROM tenant_hosts WHERE tenant_id = $1 *)
  selectHosts : string -> Rows string;
  (** SELECT api_key_hash FROM tenant_lms_api_keys
      WHERE tenant_id = $1 AND revoked = false *)
  selectAPIKeys : string -> Rows string;
  (** UPDATE tenants SET status = 'deleted' WHERE tenant_id = $1: the rows
      affected, or the error of the statement or of [RowsAffected] *)
  updateDeleted : string -> Z + string
}.

(** [type DatabaseTenantStore struct] *)
Record DatabaseTenantStore := mkDatabase {
  db : DB;
  cache : gmap string TenantConfig.t
}.

(** [func (s *DatabaseTenantStore) loadTenantConfig(ctx, tenantID)] *)
Definition loadTenantConfig (s : DatabaseTenantStore) (tenantID : string)
    : TenantConfig.t + string :=
  (* Load LRS config *)
  match scanRow (selectLRSConfig (db s) tenantID) with
  | inr err => inr ("failed to load LRS config: " +:+ err)
  | inl (endpoint, username, password) =>
  (* Load auth config *)
  match scanRow (selectAuthConfig (db s) tenantID) with
  | inr err => inr ("failed to load auth config: " +:+ err)
  | inl (jwtSecretStr, ttl, policy) =>
  (* Load hosts *)
  match selectHosts (db s) tenantID with
  | inr err => inr ("failed to load hosts: " +:+ err)
  | inl hostRows =>
  match scanAll hostRows with
  | inr err => inr err
  | inl hosts =>
  (* Load API keys *)
  match selectAPIKeys (db s) tenantID with
  | inr err => inr ("failed to load API keys: " +:+ err)
  | inl keyRows =>
  match scanAll keyRows with
  | inr err => inr err
  | inl keys =>
      inl (TenantConfig.mk tenantID hosts endpoint username password
             jwtSecretStr ttl (enableKeys keys) policy)
  end end end end end end.

(** [func (s *DatabaseTenantStore) GetByHost(ctx, host)] *)
Definition databaseGetByHost (s : DatabaseTenantStore) (host : string)
    : DatabaseTenantStore * (TenantConfig.t + string) :=
  (* Check cache first *)
  match cache s !! host with
  | Some cached => (s, inl cached)
  | None =>
      (* Query database *)
      match selectTenantID (db s) host with
      | ErrNoRows => (s, inr ("tenant not found for host: " +:+ host))
      | QueryFailed err => (s, inr ("database error: " +:+ err))
      | Row tenantID =>
          (* Load full tenant config *)
          match loadTenantConfig s tenantID with
          | inr err => (s, inr err)
          | inl config =>
              (* Cache it *)
              (mkDatabase (db s) (<[host := config]> (cache s)), inl config)
          end
      end
  end.

(** [func (s *DatabaseTenantStore) GetByID(ctx, tenantID)] *)
Definition databaseGetByID (s : DatabaseTenantStore) (tenantID : string)
    : DatabaseTenantStore * (TenantConfig.t + string) :=
  (s, loadTenantConfig s tenantID).

#[global] Instance databaseTenantStore : TenantStore DatabaseTenantStore := {
  GetByHost := databaseGetByHost;
  GetByID := databaseGetByID
}.

(** [func (s *DatabaseTenantStore) DeleteTenant(ctx, tenantID) error] *)
Definition DeleteTenant (s : DatabaseTenantStore) (tenantID : string)
    : DatabaseTenantStore * Go.error :=
  match updateDeleted (db s) tenantID with
  | inr err => (s, Some err)
  | inl rows =>
      if Z.eqb rows 0 then
        (s, Go.Errorf ("tenant not found: " +:+ tenantID))
      else
        (* Invalidate cache *)
        (mkDatabase (db s)
           (filter (fun entry => TenantConfig.TenantID entry.2 <> tenantID)
                   (cache s)),
         None)
  end.

End store.

(** ** Package [middleware] *)

Module middleware.

(** Either the middleware answered itself, or it called [next] with the
    decoded claims bound to [ClaimsKey]. *)
Inductive Outcome :=
| Rejected (resp : http.Response)
| Next (claims : Claims.t).

Section JWT.

(** [jwt.ParseWithClaims(tokenString, &models.Claims{}, keyfunc)]:
    [inl token] when [err == nil], [inr msg] otherwise.  Parsing,
    signature and expiry checks are the library's. *)
Variable ParseWithClaims : string -> jwt.Keyfunc -> jwt.Token + string.

(** The key function that [JWTAuthMiddleware] passes to the parser. *)
Definition keyfunc (tenant : TenantConfig.t) : jwt.Keyfunc :=
  fun token =>
    match jwt.Method token with
    | jwt.SigningMethodHMAC _ => inl (TenantConfig.JWTSecret tenant)
    | _ => inr jwt.ErrSignatureInvalid
    end.

(** [func JWTAuthMiddleware(next http.Handler) http.Handler] *)
Definition JWTAuthMiddleware (tenant : TenantConfig.t) (r : http.Request)
    : Outcome :=
  (* Extract JWT from Authorization header *)
  let auth := http.Get (http.Header r) "Authorization" in
  if String.eqb auth "" then
    Rejected (http.Error "Authorization required" http.StatusUnauthorized)
  else
    (* Parse Bearer token *)
    match Go.SplitN2 auth with
    | [scheme; tokenString] =>
        if negb (String.eqb scheme "Bearer") then
          Rejected (http.Error "Invalid authorization format"
                               http.StatusUnauthorized)
        else
          (* Parse and validate JWT *)
          match ParseWithClaims tokenString (keyfunc tenant) with
          | inr _ =>
              Rejected (http.Error "Invalid token" http.StatusUnauthorized)
          | inl token =>
              if negb (jwt.Valid token) then
                Rejected (http.Error "Invalid token" http.StatusUnauthorized)
              else
                match jwt.TokenClaims token with
                | None =>
                    Rejected (http.Error "Invalid token claims"
                                         http.StatusUnauthorized)
                | Some claims =>
                    (* Verify tenant matches *)
                    if negb (String.eqb (Claims.TenantID claims)
                                        (TenantConfig.TenantID tenant)) then
                      Rejected (http.Error "Invalid token"
                                           http.StatusUnauthorized)
                    else Next claims
                end
          end
    | _ =>
        Rejected (http.Error "Invalid authorization format"
                             http.StatusUnauthorized)
    end.

End JWT.

(** Either the middleware answered itself, or it called [next]. *)
Inductive Gate :=
| Denied (resp : http.Response)
| Passed.

(** [func LMSAuthMiddleware(next http.Handler) http.Handler];
    [tenant.LMSAPIKeys[apiKey]] is [false] for a missing key. *)
Definition LMSAuthMiddleware (tenant : TenantConfig.t) (r : http.Request)
    : Gate :=
  (* Extract API key from Authorization header *)
  let auth := http.Get (http.Header r) "Authorization" in
  if String.eqb auth "" then
    Denied (http.Error "Authorization required" http.StatusUnauthorized)
  else
    (* Parse Bearer token *)
    match Go.SplitN2 auth with
    | [scheme; apiKey] =>
        if negb (String.eqb scheme "Bearer") then
          Denied (http.Error "Invalid authorization format"
                             http.StatusUnauthorized)
        (* Validate API key against tenant's keys *)
        else if negb (default false (TenantConfig.LMSAPIKeys tenant !! apiKey)) then
          Denied (http.Error "Invalid API key" http.StatusUnauthorized)
        else Passed
    | _ =>
        Denied (http.Error "Invalid authorization format"
                           http.StatusUnauthorized)
    end.

(** [func AdminAuthMiddleware(next http.Handler) http.Handler] *)
Definition AdminAuthMiddleware (r : http.Request) : Gate :=
  let auth := http.Get (http.Header r) "Authorization" in
  if String.eqb auth "" then
    Denied (http.Error "Authorization required" http.StatusUnauthorized)
  else
    match Go.SplitN2 auth with
    | [scheme; _] =>
        if negb (String.eqb scheme "Bearer") then
          Denied (http.Error "Invalid authorization format"
                             http.StatusUnauthorized)
        else Passed
    | _ =>
        Denied (http.Error "Invalid authorization format"
                           http.StatusUnauthorized)
    end.

(** Either [TenantMiddleware] answered 404, or it called [next] with the
    tenant bound to [TenantKey]. *)
Inductive Resolved :=
| NotFound (resp : http.Response)
| Found (tenant : TenantConfig.t).

(** [func TenantMiddleware(tenantStore store.TenantStore)]; [host] is
    [r.Host]. *)
Definition TenantMiddleware {S} `{store.TenantStore S} (tenantStore : S)
    (host : string) : S * Resolved :=
  match store.GetByHost tenantStore host with
  | (tenantStore', inr _) =>
      (tenantStore', NotFound (http.Error "Tenant not found" 404))
  | (tenantStore', inl tenant) => (tenantStore', Found tenant)
  end.


End middleware.

(** ** Package [handlers] (src/handlers.go) *)

Module handlers.

(** What serving one request did: the requests handed to the upstream
    HTTP client, in order, and the response written to the caller. *)
Record Exchange := mkExchange {
  Upstream : list http.UpstreamRequest;
  Reply : http.Response
}.

(** The handler answered without calling the LRS. *)
Definition answer (resp : http.Response) : Exchange := mkExchange [] resp.

(** The bytes that reached the upstream client. *)
Definition upstreamBytes (x : Exchange) : string :=
  foldr (fun req acc => default "" (http.ReqBody req) +:+ acc) "" (Upstream x).

(** [s[n:]] for [n <= len(s)]. *)
Fixpoint sliceFrom (n : nat) (s : string) : string :=
  match n, s with
  | O, _ => s
  | S n', String _ rest => sliceFrom n' rest
  | S _, EmptyString => EmptyString
  end.

Section Handlers.

Variable fmtActor : Actor.t -> string.
Variable fmtContext : option Context.t -> string.

(** [encoding/json]: [json.Unmarshal(body, &statements)] into a
    [[]models.Statement], into a single [models.Statement], the decoder
    of a [models.TokenRequest], and the encoder of a
    [models.TokenResponse]; [None] is a decoding error. *)
Variable unmarshalStatements : string -> option (list Statement.t).
Variable unmarshalStatement : string -> option Statement.t.
Variable decodeTokenRequest : string -> option TokenRequest.t.
Variable marshalTokenResponse : TokenResponse.t -> string.

(** [jwt.NewWithClaims(jwt.SigningMethodHS256, claims).SignedString(key)]:
    [inl token] or [inr err]. *)
Variable SignedString : string -> Claims.t -> string + string.

(** [http.NewRequest(method, url, body)] succeeds on this method and
    URL. *)
Variable newRequestOK : string -> string -> bool.

(** [client.Do(req)]: the response of the LRS, [None] on a transport
    error or timeout. *)
Variable Do : http.UpstreamRequest -> option http.Response.

(** [expiresAt := time.Now().Add(time.Duration(tenant.JWTTTLSeconds) *
    time.Second)], where [now] is the reading of [time.Now()].  The
    product is an [int64] count of nanoseconds: it wraps around from a
    lifetime of 9223372037 seconds on. *)
Definition expiresAt (tenant : TenantConfig.t) (now : Z) : Z :=
  time.Add now (time.times (TenantConfig.JWTTTLSeconds tenant) time.Second).

(** The [&models.Claims{...}] literal of [IssueToken]; [now] and [now']
    are the two readings of [time.Now()]. *)
Definition newClaims (tenant : TenantConfig.t) (now now' : Z)
    (req : TokenRequest.t) : Claims.t :=
  Claims.mk (TenantConfig.TenantID tenant)
    (TokenRequest.Actor req)
    (TokenRequest.Registration req)
    (TokenRequest.ActivityID req)
    (TokenRequest.CourseID req)
    (TokenRequest.Permissions req)
    (TokenRequest.Group req)
    (TokenRequest.Metadata req)
    (RegisteredClaims.mk (jwt.NewNumericDate (expiresAt tenant now))
       (jwt.NewNumericDate now')
       "xapi-lrs-auth-proxy" (Actor.Mbox (TokenRequest.Actor req))).

(** The 200 response that carries the token and the [time.Time] at which
    it expires. *)
Definition tokenIssued (tokenString : string) (expiresAt : Z)
    : http.Response :=
  http.mkResponse http.StatusOK
    {[ "Content-Type" := (["application/json"]) ]}
    (marshalTokenResponse (TokenResponse.mk tokenString expiresAt)
     +:+ Go.LF).

(** [func (h *Handler) IssueToken(w, r)] *)
Definition IssueToken (tenant : TenantConfig.t) (now now' : Z)
    (r : http.Request) : Exchange :=
  match http.Body r ≫= decodeTokenRequest with
  | None => answer (http.Error "Invalid request body" http.StatusBadRequest)
  | Some req =>
      (* Validate permissions *)
      match models.ValidatePermission
              (Permissions.Write (TokenRequest.Permissions req)) with
      | Some err => answer (http.Error err http.StatusBadRequest)
      | None =>
      match models.ValidatePermission
              (Permissions.Read (TokenRequest.Permissions req)) with
      | Some err => answer (http.Error err http.StatusBadRequest)
      | None =>
          (* Create JWT claims *)
          let expiresAt := expiresAt tenant now in
          let claims := newClaims tenant now now' req in
          (* Sign token *)
          match SignedString (TenantConfig.JWTSecret tenant) claims with
          | inr _ =>
              answer (http.Error "Token generation failed"
                                 http.StatusInternalServerError)
          | inl tokenString =>
              (* Return token *)
              answer (tokenIssued tokenString expiresAt)
          end
      end
      end
  end.

(** [func (h *Handler) forwardToLRS(w, r, tenant, body)] *)
Definition forwardToLRS (tenant : TenantConfig.t) (r : http.Request)
    (body : option string) : Exchange :=
  (* Build LRS URL: remove "/xapi" prefix *)
  let lrsURL :=
    TenantConfig.LRSEndpoint tenant +:+ sliceFrom 5 (http.Path r)
    +:+ (if Go.nonEmpty (http.RawQuery r) then "?" +:+ http.RawQuery r
         else "") in
  if negb (newRequestOK (http.Method r) lrsURL) then
    answer (http.Error "Failed to forward request"
                       http.StatusInternalServerError)
  else
    (* Copy headers (except Authorization - we use LRS credentials);
       [req.Header.Add(key, value)] files each value under the key it came
       with, canonical already *)
    let copied := delete "Authorization" (delete "Host" (http.Header r)) in
    (* Ensure xAPI version header *)
    let header :=
      if String.eqb (http.HeaderGet copied "X-Experience-API-Version") "" then
        http.HeaderSet copied "X-Experience-API-Version" "1.0.3"
      else copied in
    let req :=
      http.mkUpstream (http.Method r) lrsURL header
        (TenantConfig.LRSUsername tenant, TenantConfig.LRSPassword tenant)
        body in
    match Do req with
    | None =>
        mkExchange [req] (http.Error "LRS request failed" http.StatusBadGateway)
    | Some resp =>
        (* Copy response headers, status code and body *)
        mkExchange [req] resp
    end.

(** The loop [for i, stmt := range statements] of
    [proxyStatementsWrite], from index [i] on: the index and error of
    the first statement that [ValidateWrite] refuses. *)
Fixpoint firstDenied (v : validator.PermissionValidator)
    (claims : Claims.t) (i : nat) (statements : list Statement.t)
    : option (nat * string) :=
  match statements with
  | [] => None
  | stmt :: rest =>
      match validator.ValidateWrite fmtActor fmtContext v claims stmt with
      | Some err => Some (i, err)
      | None => firstDenied v claims (S i) rest
      end
  end.

(** Parse statements: an array first, then a single statement. *)
Definition parseStatements (body : string) : option (list Statement.t) :=
  match unmarshalStatements body with
  | Some statements => Some statements
  | None =>
      match unmarshalStatement body with
      | Some stmt => Some [stmt]
      | None => None
      end
  end.

(** [func (h *Handler) proxyStatementsWrite(w, r, tenant, claims, v)] *)
Definition proxyStatementsWrite (tenant : TenantConfig.t)
    (claims : Claims.t) (v : validator.PermissionValidator)
    (r : http.Request) : Exchange :=
  match http.Body r with
  | None => answer (http.Error "Failed to read body" http.StatusBadRequest)
  | Some body =>
      match parseStatements body with
      | None =>
          answer (http.Error "Invalid statement format" http.StatusBadRequest)
      | Some statements =>
          (* Validate each statement against permissions *)
          match firstDenied v claims 0 statements with
          | Some (i, err) =>
              answer (http.Error
                        ("Statement " +:+ Go.itoa i +:+ ": " +:+ err)
                        http.StatusForbidden)
          | None =>
              (* Forward to LRS *)
              forwardToLRS tenant r (Some body)
          end
      end
  end.

(** [func (h *Handler) proxyStatementsRead(w, r, tenant, claims, v)] *)
Definition proxyStatementsRead (tenant : TenantConfig.t)
    (claims : Claims.t) (v : validator.PermissionValidator)
    (r : http.Request) : Exchange :=
  (* Extract query parameters: the first value of every key *)
  let query : gmap string string := omap head (http.Query r) in
  match validator.ValidateRead v claims query with
  | Some err => answer (http.Error err http.StatusForbidden)
  | None => forwardToLRS tenant r None
  end.

(** [func (h *Handler) ProxyStatements(w, r)] *)
Definition ProxyStatements (tenant : TenantConfig.t) (claims : Claims.t)
    (r : http.Request) : Exchange :=
  let v := validator.NewPermissionValidator
             (TenantConfig.PermissionPolicy tenant) in
  if String.eqb (http.Method r) "POST" || String.eqb (http.Method r) "PUT" then
    proxyStatementsWrite tenant claims v r
  else if String.eqb (http.Method r) "GET" then
    proxyStatementsRead tenant claims v r
  else
    answer (http.Error "Method not allowed" http.StatusMethodNotAllowed).

(** The body that the state and profile handlers forward: read only for
    POST and PUT, [nil] otherwise; [None] when the read fails. *)
Definition readBodyIfPresent (r : http.Request) : option (option string) :=
  if String.eqb (http.Method r) "POST" || String.eqb (http.Method r) "PUT" then
    match http.Body r with
    | None => None
    | Some body => Some (Some body)
    end
  else Some None.

Definition forwardWithBody (tenant : TenantConfig.t) (r : http.Request)
    : Exchange :=
  match readBodyIfPresent r with
  | None => answer (http.Error "Failed to read body" http.StatusBadRequest)
  | Some body => forwardToLRS tenant r body
  end.

(** [func (h *Handler) ProxyState(w, r)] *)
Definition ProxyState (tenant : TenantConfig.t) (claims : Claims.t)
    (r : http.Request) : Exchange :=
  let v := validator.NewPermissionValidator
             (TenantConfig.PermissionPolicy tenant) in
  (* Extract state parameters *)
  let activityID := http.Get (http.Query r) "activityId" in
  let agent := http.Get (http.Query r) "agent" in
  let registration := http.Get (http.Query r) "registration" in
  (* Validate state access *)
  match validator.ValidateStateAccess v claims activityID agent registration with
  | Some err => answer (http.Error err http.StatusForbidden)
  | None => forwardWithBody tenant r
  end.

(** [func (h *Handler) ProxyActivityProfile(w, r)] *)
Definition ProxyActivityProfile (tenant : TenantConfig.t)
    (r : http.Request) : Exchange :=
  forwardWithBody tenant r.

(** [func (h *Handler) ProxyAgentProfile(w, r)]: [claims] and the [agent]
    parameter are read and assigned to the blank identifier. *)
Definition ProxyAgentProfile (tenant : TenantConfig.t) (claims : Claims.t)
    (r : http.Request) : Exchange :=
  let agent := http.Get (http.Query r) "agent" in
  let _ := claims in
  let _ := agent in
  forwardWithBody tenant r.

(** [func (h *Handler) ProxyAbout(w, r)] *)
Definition ProxyAbout (tenant : TenantConfig.t) (r : http.Request)
    : Exchange :=
  forwardToLRS tenant r None.

(** The [/xapi] subrouter of [main]: every route runs behind
    [JWTAuthMiddleware]; the tenant is already resolved. *)
Variable ParseWithClaims : string -> jwt.Keyfunc -> jwt.Token + string.

Definition withJWT (tenant : TenantConfig.t) (r : http.Request)
    (handler : Claims.t -> Exchange) : Exchange :=
  match middleware.JWTAuthMiddleware ParseWithClaims tenant r with
  | middleware.Rejected resp => answer resp
  | middleware.Next claims => handler claims
  end.

Definition xapiAgentsProfile (tenant : TenantConfig.t) (r : http.Request)
    : Exchange :=
  withJWT tenant r (fun claims => ProxyAgentProfile tenant claims r).

Definition xapiStatements (tenant : TenantConfig.t) (r : http.Request)
    : Exchange :=
  withJWT tenant r (fun claims => ProxyStatements tenant claims r).

Definition xapiActivitiesState (tenant : TenantConfig.t) (r : http.Request)
    : Exchange :=
  withJWT tenant r (fun claims => ProxyState tenant claims r).

Definition xapiActivitiesProfile (tenant : TenantConfig.t) (r : http.Request)
    : Exchange :=
  withJWT tenant r (fun _ => ProxyActivityProfile tenant r).

Definition xapiAbout (tenant : TenantConfig.t) (r : http.Request)
    : Exchange :=
  withJWT tenant r (fun _ => ProxyAbout tenant r).

(** The route [/auth/token] of [main]: [TenantMiddleware], then
    [LMSAuthMiddleware], then [IssueToken]; [host] is [r.Host]. *)
Definition authToken {S} `{store.TenantStore S} (tenantStore : S)
    (host : string) (now now' : Z) (r : http.Request) : S * Exchange :=
  match middleware.TenantMiddleware tenantStore host with
  | (tenantStore', middleware.NotFound resp) => (tenantStore', answer resp)
  | (tenantStore', middleware.Found tenant) =>
      match middleware.LMSAuthMiddleware tenant r with
      | middleware.Denied resp => (tenantStore', answer resp)
      | middleware.Passed => (tenantStore', IssueToken tenant now now' r)
      end
  end.


End Handlers.

End handlers.

(** ** The vocabulary of the specification *)

Module Spec.

(** The identifier kinds of an actor, in the order the specification
    lists them. *)
Inductive Identifier := ByMbox | ByMboxSHA1 | ByOpenID | ByAccount.

Definition identifierOrder : list Identifier :=
  [ByMbox; ByMboxSHA1; ByOpenID; ByAccount].

Definition populated (k : Identifier) (a : Actor.t) : bool :=
  match k with
  | ByMbox => Go.nonEmpty (Actor.Mbox a)
  | ByMboxSHA1 => Go.nonEmpty (Actor.MboxSHA1 a)
  | ByOpenID => Go.nonEmpty (Actor.OpenID a)
  | ByAccount => match Actor.Account a with Some _ => true | None => false end
  end.

(** The identifier is populated on both sides. *)
Definition populatedOnBoth (a b : Actor.t) (k : Identifier) : bool :=
  populated k a && populated k b.

(** The two sides carry the same value for the identifier; for an
    account, both home page and name agree. *)
Definition identifierMatches (a b : Actor.t) (k : Identifier) : bool :=
  match k with
  | ByMbox => String.eqb (Actor.Mbox a) (Actor.Mbox b)
  | ByMboxSHA1 => String.eqb (Actor.MboxSHA1 a) (Actor.MboxSHA1 b)
  | ByOpenID => String.eqb (Actor.OpenID a) (Actor.OpenID b)
  | ByAccount =>
      match Actor.Account a, Actor.Account b with
      | Some x, Some y =>
          String.eqb (Account.HomePage x) (Account.HomePage y)
          && String.eqb (Account.Name x) (Account.Name y)
      | _, _ => false
      end
  end.

(** The first identifier, in the listed order, populated on both sides. *)
Definition firstShared (a b : Actor.t) : option Identifier :=
  List.find (populatedOnBoth a b) identifierOrder.

(** "The agent parameter identifies the claims' actor": the serialized
    parameter contains the actor's mbox or openid. *)
Definition identifiesActor (claims : Claims.t) (agent : string) : bool :=
  Go.Contains agent (Actor.Mbox (Claims.Actor claims))
  || Go.Contains agent (Actor.OpenID (Claims.Actor claims)).

(** The write scopes the specification calls not applicable for write. *)
Definition readOnlyScopes : list string :=
  [ "actor-course-registration-scoped";
    "actor-activity-all-registrations";
    "actor-cross-course-certification" ].

End Spec.

(** ** Concrete tokens, statements and requests

    The values of the specification's end-to-end scenarios, and the
    simplest environment around the handlers. *)

Module Scenario.

Definition agent (mbox : string) : Actor.t :=
  Actor.mk "" "" mbox "" "" None.

Definition learner : Actor.t := agent "mailto:a@x".
Definition stranger : Actor.t := agent "mailto:b@x".

Definition defaultScope : string := "actor-activity-registration-scoped".
Definition groupScope : string := "group-activity-registration-scoped".

(** 2026-01-17T14:30:00Z *)
Definition now : Z := 1768660200.

Definition tenant (policy : string) : TenantConfig.t :=
  TenantConfig.mk "A" ["*"] "https://lrs.example/xapi" "lrs-user" "lrs-pass"
    "0123456789abcdef0123456789abcdef" 3600 {[ "lms-key" := true ]} policy.

(** Claims for [actor], registration [reg], activity [https://ex/a],
    issued at [now] by tenant [A]. *)
Definition claimsOf (actor : Actor.t) (reg write read : string)
    (group : option Group.t) : Claims.t :=
  Claims.mk "A" actor reg "https://ex/a" "" (Permissions.mk write read)
    group []
    (RegisteredClaims.mk (now + 3600) now "xapi-lrs-auth-proxy"
       (Actor.Mbox actor)).

(** The token of scenario S1. *)
Definition claimsS1 : Claims.t :=
  claimsOf learner "R1" defaultScope defaultScope None.

(** A token with an empty registration. *)
Definition claimsNoRegistration : Claims.t :=
  claimsOf learner "" defaultScope defaultScope None.

(** A token whose scopes have no evaluator branch. *)
Definition claimsAggregate : Claims.t :=
  claimsOf learner "R1" "course-aggregate-only" "course-aggregate-only" None.

(** A token with the group scope and no authorized group. *)
Definition claimsGroupScopeNoGroup : Claims.t :=
  claimsOf learner "R1" groupScope groupScope None.

(** A token whose actor carries both an mbox and an openid. *)
Definition claimsOpenID : Claims.t :=
  claimsOf (Actor.mk "Agent" "" "mailto:a@x" "" "https://id.example/a" None)
    "R1" defaultScope defaultScope None.

Definition statement (actor : Actor.t) (activity : string)
    (context : option Context.t) : Statement.t :=
  Statement.mk "" actor (Verb.mk "v" []) (Object.mk "" activity []) context [].

Definition registration (reg : string) : option Context.t :=
  Some (Context.mk reg None None []).

(** The statement of scenario S1. *)
Definition statementS1 : Statement.t :=
  statement learner "https://ex/a" (registration "R1").

(** A statement whose context carries no registration. *)
Definition statementNoRegistration : Statement.t :=
  statement learner "https://ex/a" (registration "").

(** The batch of scenario S8: statement 1 has the wrong activity. *)
Definition batchS8 : list Statement.t :=
  [ statementS1;
    statement learner "https://ex/other" (registration "R1");
    statementS1 ].

Definition tokenRequest (actor : Actor.t) (reg activity write read : string)
    (group : option Group.t) : TokenRequest.t :=
  TokenRequest.mk actor reg activity "" (Permissions.mk write read) group [].

(** A token request with no actor, no registration, no activity id, and
    a group that is not of type Group and has no member. *)
Definition emptyTokenRequest : TokenRequest.t :=
  tokenRequest Actor.zero "" "" defaultScope defaultScope
    (Some (Group.mk "Agent" "" [])).

(** A token request that asks for a read-only scope as write scope. *)
Definition courseWriteTokenRequest : TokenRequest.t :=
  tokenRequest learner "R1" "https://ex/a"
    "actor-course-registration-scoped" defaultScope None.

(** *** JSON texts *)

Definition quote : string := String (ascii_of_nat 34) EmptyString.
Definition str (s : string) : string := quote +:+ s +:+ quote.
Definition member (key value : string) : string := str key +:+ ":" +:+ value.
Definition object (members : list string) : string :=
  "{" +:+ String.concat "," members +:+ "}".
Definition array (items : list string) : string :=
  "[" +:+ String.concat "," items +:+ "]".

Definition agentJSON (mbox : string) : string :=
  object [member "mbox" (str mbox)].

Definition statementJSON (mbox activity reg : string) : string :=
  object [ member "actor" (agentJSON mbox);
           member "verb" (object [member "id" (str "v")]);
           member "object" (object [member "id" (str activity)]);
           member "context" (object [member "registration" (str reg)]) ].

Definition batchS8JSON : string :=
  array [ statementJSON "mailto:a@x" "https://ex/a" "R1";
          statementJSON "mailto:a@x" "https://ex/other" "R1";
          statementJSON "mailto:a@x" "https://ex/a" "R1" ].

Definition permissionsJSON (write read : string) : string :=
  object [member "write" (str write); member "read" (str read)].

Definition emptyTokenRequestJSON : string :=
  object [ member "permissions" (permissionsJSON defaultScope defaultScope);
           member "group" (object [ member "objectType" (str "Agent");
                                    member "member" (array []) ]) ].

Definition courseWriteTokenRequestJSON : string :=
  object [ member "actor" (agentJSON "mailto:a@x");
           member "registration" (str "R1");
           member "activity_id" (str "https://ex/a");
           member "permissions"
             (permissionsJSON "actor-course-registration-scoped" defaultScope) ].

(** *** Requests *)

Definition request (method path rawQuery : string)
    (query : gmap string (list string)) (authorization : string)
    (body : string) : http.Request :=
  http.mkRequest method path rawQuery query
    (if String.eqb authorization "" then ∅
     else {[ "Authorization" := [authorization] ]})
    (Some body).

Definition postStatements (body : string) : http.Request :=
  request "POST" "/xapi/statements" "" ∅ "Bearer h.p.s" body.

Definition postToken (body : string) : http.Request :=
  request "POST" "/auth/token" "" ∅ "Bearer lms-key" body.

(** GET /xapi/agents/profile for the profile of [stranger]. *)
Definition getStrangerProfile : http.Request :=
  request "GET" "/xapi/agents/profile"
    "agent=%7B%22mbox%22%3A%22mailto%3Ab%40x%22%7D&profileId=p"
    {[ "agent" := [agentJSON "mailto:b@x"]; "profileId" := ["p"] ]}
    "Bearer h.p.s" "".

(** Requests to the statements endpoint without a header, and with a
    token the parser refuses. *)
Definition getWithoutHeader : http.Request :=
  request "GET" "/xapi/statements" "" ∅ "" "".
Definition getWithBadToken : http.Request :=
  request "GET" "/xapi/statements" "" ∅ "Bearer garbage" "".

(** *** The environment

    A decoder that knows one text, a signer that yields the token
    ["h.p.s"], an LRS that answers 200, a parser that accepts every token
    string as a valid HS256 token carrying [claims], and one that refuses
    every token string. *)
Definition fmtNothing {A} (_ : A) : string := "".
Definition decodes {A} (text : string) (value : A) (body : string) : option A :=
  if String.eqb body text then Some value else None.
Definition decodesNever {A} (_ : string) : option A := None.
Definition marshalToken (resp : TokenResponse.t) : string :=
  TokenResponse.Token resp.
Definition signs (_ : string) (_ : Claims.t) : string + string := inl "h.p.s".
Definition anyRequestOK (_ _ : string) : bool := true.
Definition lrsOK (_ : http.UpstreamRequest) : option http.Response :=
  Some (http.mkResponse http.StatusOK ∅ "").
Definition parsesTo (claims : Claims.t) (_ : string) (_ : jwt.Keyfunc)
    : jwt.Token + string :=
  inl (jwt.mkToken (jwt.SigningMethodHMAC "HS256") (Some claims) true).
Definition parsesNever (_ : string) (_ : jwt.Keyfunc) : jwt.Token + string :=
  inr "token is malformed".

End Scenario.

(** ** Further tokens, statements and stores *)

Module Example.

(** A team of the learner and the stranger, its token, and a statement
    made in the name of the team. *)
Definition team : Group.t :=
  Group.mk "Group" "Team A" [Scenario.learner; Scenario.stranger].

Definition claimsTeam : Claims.t :=
  Scenario.claimsOf Scenario.learner "R1" Scenario.groupScope
    Scenario.groupScope (Some team).

Definition statementTeam : Statement.t :=
  Scenario.statement (Actor.mk "Group" "Team A" "" "" "" None)
    "https://ex/a" (Scenario.registration "R1").

(** The token of scenario S5 (course-wide read), and its query. *)
Definition claimsCourseRead : Claims.t :=
  Scenario.claimsOf Scenario.learner "R1" Scenario.defaultScope
    "actor-course-registration-scoped" None.

Definition queryS5 : gmap string string :=
  {[ "registration" := "R1"; "activity" := "https://ex/other" ]}.

(** A token that reads the learner's statements on one activity across
    registrations. *)
Definition claimsAllRegistrations : Claims.t :=
  Scenario.claimsOf Scenario.learner "R1" Scenario.defaultScope
    "actor-activity-all-registrations" None.

(** A token without read permission. *)
Definition claimsNoRead : Claims.t :=
  Scenario.claimsOf Scenario.learner "R1" Scenario.defaultScope "false" None.

(** PUT /xapi/activities/state with a JSON document, an older protocol
    version and a content type. *)
Definition putState : http.Request :=
  http.mkRequest "PUT" "/xapi/activities/state" "stateId=s"
    {[ "stateId" := ["s"] ]}
    {[ "Authorization" := ["Bearer h.p.s"];
       "Content-Type" := ["application/json"];
       "X-Experience-Api-Version" := ["1.0.2"] ]}
    (Some "{}").

(** The first request that an exchange handed to the upstream client. *)
Definition sent (x : handlers.Exchange) : http.UpstreamRequest :=
  match handlers.Upstream x with
  | req :: _ => req
  | [] => http.mkUpstream "" "" ∅ ("", "") None
  end.

(** POST /xapi/statements with the statement of scenario S1. *)
Definition statementS1JSON : string :=
  Scenario.statementJSON "mailto:a@x" "https://ex/a" "R1".

(** Two reads that agree on the first agent value. *)
Definition getTwoAgents : http.Request :=
  http.mkRequest "GET" "/xapi/statements" "agent=b&agent=a"
    {[ "agent" := ["mailto:b@x"; "mailto:a@x"] ]}
    {[ "Authorization" := ["Bearer h.p.s"] ]} (Some "").

Definition getOneAgent : http.Request :=
  http.mkRequest "GET" "/xapi/statements" "agent=b&limit=10"
    {[ "agent" := ["mailto:b@x"]; "limit" := ["10"] ]}
    {[ "Authorization" := ["Bearer h.p.s"] ]} (Some "").

(** A second tenant that shares the secret of the first. *)
Definition tenantB : TenantConfig.t :=
  TenantConfig.mk "B" ["b.example"] "https://lrs-b.example/xapi" "b-user"
    "b-pass" "0123456789abcdef0123456789abcdef" 3600 {[ "b-key" := true ]}
    "strict".

(** A configuration file that sets a lifetime of ten minutes and two LMS
    keys and leaves mode, port and policy out. *)
Definition fileConfig : Config.t :=
  Config.mk ""
    (ServerConfig.mk 0 "")
    (LRSConfig.mk "https://lrs.example/xapi" "lrs-user" "lrs-pass" 0 0)
    (AuthConfig.mk "" 600 ["key-1"; "key-2"] "")
    (DatabaseConfig.mk "" 0 "" "" "" "")
    (RedisConfig.mk "" 0 "" 0 0).

Definition readsFile (_ : string) : string + string := inl "auth: ...".
Definition parsesFile (_ : string) : Config.t + string := inl fileConfig.
Definition noExpansion (s : string) : string := s.

(** A database with the tenant "acme" under the host "acme.example", and
    the same database after the host was removed. *)
Definition acmeDB : store.DB :=
  store.mkDB
    (fun host => if String.eqb host "acme.example" then store.Row "acme"
                 else store.ErrNoRows)
    (fun tenantID =>
       if String.eqb tenantID "acme"
       then store.Row ("https://lrs.acme.example/xapi", "acme-user", "acme-pass")
       else store.ErrNoRows)
    (fun tenantID =>
       if String.eqb tenantID "acme"
       then store.Row ("acme-jwt-secret-32-bytes-minimum", 3600, "strict")
       else store.ErrNoRows)
    (fun tenantID =>
       if String.eqb tenantID "acme" then inl [inl "acme.example"] else inl [])
    (fun tenantID =>
       if String.eqb tenantID "acme" then inl [inl "acme-lms-key"] else inl [])
    (fun tenantID => if String.eqb tenantID "acme" then inl 1 else inl 0).

Definition emptyDB : store.DB :=
  store.mkDB (fun _ => store.ErrNoRows) (fun _ => store.ErrNoRows)
    (fun _ => store.ErrNoRows) (fun _ => inl []) (fun _ => inl [])
    (fun _ => inl 0).

Definition acmeTenant : TenantConfig.t :=
  TenantConfig.mk "acme" ["acme.example"] "https://lrs.acme.example/xapi"
    "acme-user" "acme-pass" "acme-jwt-secret-32-bytes-minimum" 3600
    {[ "acme-lms-key" := true ]} "strict".

(** The store after start-up, and with the tenant cached. *)
Definition coldStore : store.DatabaseTenantStore := store.mkDatabase acmeDB ∅.
Definition warmStore : store.DatabaseTenantStore :=
  store.mkDatabase acmeDB {[ "acme.example" := acmeTenant ]}.

(** A database whose connection is closed, with the tenant still cached. *)
Definition closedDB : store.DB :=
  store.mkDB (fun _ => store.ErrNoRows) (fun _ => store.ErrNoRows)
    (fun _ => store.ErrNoRows) (fun _ => inl []) (fun _ => inl [])
    (fun _ => inr "sql: database is closed").
Definition closedStore : store.DatabaseTenantStore :=
  store.mkDatabase closedDB {[ "acme.example" := acmeTenant ]}.

(** The clock at 2026-01-17T14:30:00Z, and at 2051-06-14T02:12:27Z. *)
Definition clock : Z := Scenario.now * time.Second.
Definition clock2051 : Z := 2570321547 * time.Second.

(** A tenant whose tokens are to live 9223372037 seconds. *)
Definition tenantLongLived : TenantConfig.t :=
  TenantConfig.mk "A" ["*"] "https://lrs.example/xapi" "lrs-user" "lrs-pass"
    "0123456789abcdef0123456789abcdef" 9223372037 {[ "lms-key" := true ]}
    "strict".

(** [http.NewRequest] refusing every method, and an LRS out of reach. *)
Definition noRequestOK (_ _ : string) : bool := false.
Definition lrsDown (_ : http.UpstreamRequest) : option http.Response := None.

End Example.

(** * Properties *)

(** ** Strings *)

Lemma nonEmpty_false (s : string) : Go.nonEmpty s = false <-> s = "".
Proof.
  unfold Go.nonEmpty. rewrite negb_false_iff. apply String.eqb_eq.
Qed.

Lemma nonEmpty_true (s : string) : Go.nonEmpty s = true <-> s <> "".
Proof.
  unfold Go.nonEmpty. rewrite negb_true_iff. apply String.eqb_neq.
Qed.

Lemma prefix_empty (s : string) : String.prefix "" s = true.
Proof. destruct s; reflexivity. Qed.

(** [strings.Contains(s, "")] is true for every [s]. *)
Lemma Contains_empty (s : string) : Go.Contains s "" = true.
Proof. destruct s; simpl; rewrite ?prefix_empty; reflexivity. Qed.

Lemma negb_eqb_false (a b : string) : negb (String.eqb a b) = false <-> a = b.
Proof. rewrite negb_false_iff. apply String.eqb_eq. Qed.

Lemma negb_eqb_true (a b : string) : negb (String.eqb a b) = true <-> a <> b.
Proof. rewrite negb_true_iff. apply String.eqb_neq. Qed.

(** ** Actor equality *)

(** C9. Two actors are equal under [Actor.Equals] exactly when the first
    identifier that is populated on both sides, looking at mbox, mbox_sha1,
    openid and account in this order, matches (for an account: home page and
    name both agree).  When no identifier is populated on both sides there is
    no such first identifier, and the actors are unequal. *)
Theorem C9_actor_equals_first_shared_identifier (a b : Actor.t) :
  Actor.Equals a b = true
  <-> exists k, Spec.firstShared a b = Some k
                /\ Spec.identifierMatches a b k = true.
Proof.
  unfold Actor.Equals, Spec.firstShared, Spec.identifierOrder; simpl.
  unfold Spec.populatedOnBoth; simpl.
  destruct (Go.nonEmpty (Actor.Mbox a) && Go.nonEmpty (Actor.Mbox b)) eqn:Hm.
  { split; [intros H; exists Spec.ByMbox; auto | intros (k & [= <-] & H); exact H]. }
  destruct (Go.nonEmpty (Actor.MboxSHA1 a) && Go.nonEmpty (Actor.MboxSHA1 b)) eqn:Hs.
  { split; [intros H; exists Spec.ByMboxSHA1; auto | intros (k & [= <-] & H); exact H]. }
  destruct (Go.nonEmpty (Actor.OpenID a) && Go.nonEmpty (Actor.OpenID b)) eqn:Ho.
  { split; [intros H; exists Spec.ByOpenID; auto | intros (k & [= <-] & H); exact H]. }
  destruct (Actor.Account a) as [x|] eqn:Ha, (Actor.Account b) as [y|] eqn:Hb;
    simpl.
  - split.
    + intros H; exists Spec.ByAccount; split; [reflexivity|].
      unfold Spec.identifierMatches; rewrite Ha, Hb; exact H.
    + intros (k & [= <-] & H).
      unfold Spec.identifierMatches in H; rewrite Ha, Hb in H; exact H.
  - split; [discriminate | intros (k & [=] & _)].
  - split; [discriminate | intros (k & [=] & _)].
  - split; [discriminate | intros (k & [=] & _)].
Qed.

(** ** The permission evaluator *)

Section Evaluator.

Variable fmtActor : Actor.t -> string.
Variable fmtContext : option Context.t -> string.

Local Abbreviation ValidateWrite :=
  (validator.ValidateWrite fmtActor fmtContext).

(** The default write scope runs [validateActorActivityRegistration]. *)
Lemma ValidateWrite_default_scope v claims stmt :
  Permissions.Write (Claims.Permissions claims)
    = "actor-activity-registration-scoped" ->
  ValidateWrite v claims stmt
  = validator.validateActorActivityRegistration fmtActor fmtContext
      v claims stmt "write".
Proof. intros H. unfold validator.ValidateWrite. rewrite H. reflexivity. Qed.

Lemma registrationMismatch_false claims stmt :
  validator.registrationMismatch claims stmt = false
  <-> exists ctx, Statement.Context stmt = Some ctx
                  /\ Context.Registration ctx = Claims.Registration claims.
Proof.
  unfold validator.registrationMismatch.
  destruct (Statement.Context stmt) as [ctx|].
  - rewrite negb_eqb_false. split.
    + intros H. exists ctx. auto.
    + intros (c & [= <-] & H). exact H.
  - split; [discriminate | intros (c & [=] & _)].
Qed.

(** C1. Under the write scope actor-activity-registration-scoped,
    [ValidateWrite] admits a statement exactly when the statement's actor
    equals the claims' actor under [Actor.Equals], its object id is the
    claims' activity id, and its context is present with a registration
    equal to the claims' registration.  A statement without context is
    denied; a statement whose context carries no registration (the empty
    string) is denied whenever the claims' registration is not empty. *)
Theorem C1_default_write_isolation v claims stmt :
  Permissions.Write (Claims.Permissions claims)
    = "actor-activity-registration-scoped" ->
  (ValidateWrite v claims stmt = None
   <-> Actor.Equals (Claims.Actor claims) (Statement.Actor stmt) = true
       /\ Object.ID (Statement.Object stmt) = Claims.ActivityID claims
       /\ exists ctx, Statement.Context stmt = Some ctx
                      /\ Context.Registration ctx = Claims.Registration claims)
  /\ (Statement.Context stmt = None -> ValidateWrite v claims stmt <> None)
  /\ (forall ctx, Statement.Context stmt = Some ctx ->
                  Context.Registration ctx = "" ->
                  Claims.Registration claims <> "" ->
                  ValidateWrite v claims stmt <> None).
Proof.
  intros Hscope.
  assert (Hiff : ValidateWrite v claims stmt = None
    <-> Actor.Equals (Claims.Actor claims) (Statement.Actor stmt) = true
        /\ Object.ID (Statement.Object stmt) = Claims.ActivityID claims
        /\ exists ctx, Statement.Context stmt = Some ctx
                       /\ Context.Registration ctx = Claims.Registration claims).
  { rewrite (ValidateWrite_default_scope _ _ _ Hscope).
    unfold validator.validateActorActivityRegistration, Go.Errorf.
    rewrite <- registrationMismatch_false.
    destruct (Actor.Equals _ _); simpl.
    2: { split; [discriminate | intros [[=] _]]. }
    destruct (negb (String.eqb _ _)) eqn:Hact.
    { apply negb_eqb_true in Hact.
      split; [discriminate | intros (_ & H & _); contradiction]. }
    apply negb_eqb_false in Hact.
    destruct (validator.registrationMismatch claims stmt).
    - split; [discriminate | intros (_ & _ & [=])].
    - split; auto. }
  split; [exact Hiff|]. split.
  - intros Hctx Hadmit. apply Hiff in Hadmit as (_ & _ & ctx & Hsome & _).
    congruence.
  - intros ctx Hctx Hreg Hne Hadmit.
    apply Hiff in Hadmit as (_ & _ & ctx' & Hsome & Heq). congruence.
Qed.

(** An unknown write scope is refused whatever the policy. *)
Lemma ValidateWrite_unsupported_scope v claims stmt :
  let scope := Permissions.Write (Claims.Permissions claims) in
  scope <> "false" ->
  scope <> "actor-activity-registration-scoped" ->
  scope <> "group-activity-registration-scoped" ->
  ValidateWrite v claims stmt
  = Some ("unsupported write permission scope: " +:+ scope).
Proof.
  intros scope H1 H2 H3. unfold validator.ValidateWrite. fold scope.
  apply String.eqb_neq in H1, H2, H3. rewrite H1, H2, H3. reflexivity.
Qed.

(** Group write scope without an authorized group: every statement is
    refused. *)
Lemma ValidateWrite_group_scope_without_group v claims stmt :
  Permissions.Write (Claims.Permissions claims)
    = "group-activity-registration-scoped" ->
  Claims.Group claims = None ->
  ValidateWrite v claims stmt <> None.
Proof.
  intros Hscope Hgroup. unfold validator.ValidateWrite. rewrite Hscope. simpl.
  unfold validator.validateGroupActivityRegistration. rewrite Hgroup.
  destruct (negb _); discriminate.
Qed.

End Evaluator.

(** An unknown read scope is admitted exactly under the permissive
    policy. *)
Lemma ValidateRead_unsupported_scope v claims query :
  let scope := Permissions.Read (Claims.Permissions claims) in
  scope <> "false" ->
  scope <> "actor-activity-registration-scoped" ->
  scope <> "actor-course-registration-scoped" ->
  scope <> "actor-activity-all-registrations" ->
  scope <> "group-activity-registration-scoped" ->
  (validator.ValidateRead v claims query = None
   <-> validator.policy v = "permissive").
Proof.
  intros scope H1 H2 H3 H4 H5. unfold validator.ValidateRead. fold scope.
  apply String.eqb_neq in H1, H2, H3, H4, H5. rewrite H1, H2, H3, H4, H5.
  destruct (String.eqb (validator.policy v) "permissive") eqn:Hp.
  - apply String.eqb_eq in Hp. split; auto.
  - apply String.eqb_neq in Hp. split; [discriminate | contradiction].
Qed.

(** With an empty openid in the claims the agent check cannot fail. *)
Lemma agentMismatch_empty_openid claims agent :
  Actor.OpenID (Claims.Actor claims) = "" ->
  validator.agentMismatch claims agent = false.
Proof.
  intros H. unfold validator.agentMismatch. rewrite H, Contains_empty.
  apply andb_false_r.
Qed.

Lemma index_agree (q1 q2 : gmap string string) (k : string) :
  q1 !! k = q2 !! k -> Go.index q1 k = Go.index q2 k.
Proof. unfold Go.index. intros ->. reflexivity. Qed.

(** C10. When the claims' actor has an empty openid, the agent check
    [agentMismatch] is false for every agent value, so the result of
    [ValidateRead] is the same for two queries that differ only in the
    agent parameter, and the result of [ValidateStateAccess] is the same for
    any two agent values. *)
Theorem C10_empty_openid_agent_independence
    v claims (q1 q2 : gmap string string) activityID agent1 agent2 registration :
  Actor.OpenID (Claims.Actor claims) = "" ->
  (forall k : string, k <> "agent" -> q1 !! k = q2 !! k) ->
  (forall agent, validator.agentMismatch claims agent = false)
  /\ validator.ValidateRead v claims q1 = validator.ValidateRead v claims q2
  /\ validator.ValidateStateAccess v claims activityID agent1 registration
     = validator.ValidateStateAccess v claims activityID agent2 registration.
Proof.
  intros Hopenid Hsame.
  pose proof (agentMismatch_empty_openid claims) as Hagent.
  specialize (fun a => Hagent a Hopenid).
  assert (Hact : Go.index q1 "activity" = Go.index q2 "activity")
    by (apply index_agree, Hsame; discriminate).
  assert (Hreg : Go.index q1 "registration" = Go.index q2 "registration")
    by (apply index_agree, Hsame; discriminate).
  split; [exact Hagent|]. split.
  - unfold validator.ValidateRead,
      validator.validateActorActivityRegistrationRead,
      validator.validateActorCourseRegistrationRead,
      validator.validateActorActivityAllRegistrationsRead,
      validator.validateGroupActivityRegistrationRead.
    rewrite !Hagent, !andb_false_r, Hact, Hreg. reflexivity.
  - unfold validator.ValidateStateAccess. rewrite !Hagent. reflexivity.
Qed.

(** ** The statements handler *)

Section StatementsWrite.

Variable fmtActor : Actor.t -> string.
Variable fmtContext : option Context.t -> string.
Variable unmarshalStatements : string -> option (list Statement.t).
Variable unmarshalStatement : string -> option Statement.t.
Variable newRequestOK : string -> string -> bool.
Variable Do : http.UpstreamRequest -> option http.Response.

Local Abbreviation ValidateWrite :=
  (validator.ValidateWrite fmtActor fmtContext).
Local Abbreviation firstDenied :=
  (handlers.firstDenied fmtActor fmtContext).
Local Abbreviation forwardToLRS := (handlers.forwardToLRS newRequestOK Do).
Local Abbreviation parseStatements :=
  (handlers.parseStatements unmarshalStatements unmarshalStatement).
Local Abbreviation proxyStatementsWrite :=
  (handlers.proxyStatementsWrite fmtActor fmtContext
     unmarshalStatements unmarshalStatement newRequestOK Do).

(** The loop finds nothing exactly when every statement is admitted. *)
Lemma firstDenied_None v claims (i0 : nat) (statements : list Statement.t) :
  firstDenied v claims i0 statements = None
  <-> Forall (fun stmt => ValidateWrite v claims stmt = None) statements.
Proof.
  revert i0. induction statements as [|stmt rest IH]; intros i0; simpl.
  - split; [constructor | reflexivity].
  - destruct (ValidateWrite v claims stmt) as [err|] eqn:Hv.
    + split; [discriminate | intros H; inversion H; congruence].
    + rewrite IH. split.
      * intros H; constructor; assumption.
      * intros H; inversion H; assumption.
Qed.

(** The loop stops at the first refused statement, in list order. *)
Lemma firstDenied_first v claims (statements : list Statement.t) :
  forall (i0 i : nat) stmt err,
    statements !! i = Some stmt ->
    ValidateWrite v claims stmt = Some err ->
    (forall (j : nat) stmt', (j < i)%nat -> statements !! j = Some stmt' ->
                     ValidateWrite v claims stmt' = None) ->
    firstDenied v claims i0 statements = Some ((i0 + i)%nat, err).
Proof.
  induction statements as [|s rest IH]; intros i0 i stmt err Hi Herr Hbefore.
  - discriminate.
  - destruct i as [|i]; simpl in *.
    + injection Hi as ->. rewrite Herr. rewrite Nat.add_0_r. reflexivity.
    + rewrite (Hbefore 0%nat s); [|lia|reflexivity].
      rewrite (IH (S i0) i stmt err Hi Herr).
      * f_equal. f_equal. lia.
      * intros j stmt' Hj Hlook. apply (Hbefore (S j)); [lia | exact Hlook].
Qed.

Lemma firstDenied_Some v claims (statements : list Statement.t) :
  forall (i0 k : nat) err,
    firstDenied v claims i0 statements = Some (k, err) ->
    exists (i : nat) stmt,
      k = (i0 + i)%nat /\ statements !! i = Some stmt
      /\ ValidateWrite v claims stmt = Some err
      /\ forall (j : nat) stmt', (j < i)%nat -> statements !! j = Some stmt' ->
                         ValidateWrite v claims stmt' = None.
Proof.
  induction statements as [|s rest IH]; intros i0 k err H; simpl in H.
  - discriminate.
  - destruct (ValidateWrite v claims s) as [e|] eqn:Hv.
    + injection H as <- <-. exists 0%nat, s.
      split; [lia|]. split; [reflexivity|]. split; [exact Hv|].
      intros j stmt' Hj; lia.
    + apply IH in H as (i & stmt & -> & Hi & Herr & Hbefore).
      exists (S i), stmt.
      split; [lia|]. split; [exact Hi|]. split; [exact Herr|].
      intros [|j] stmt' Hj Hlook; simpl in Hlook.
      * congruence.
      * apply (Hbefore j); [lia | exact Hlook].
Qed.

(** Whatever [forwardToLRS] hands to the upstream client carries the body
    it was given. *)
Lemma forwardToLRS_body tenant r body req :
  req ∈ handlers.Upstream (forwardToLRS tenant r body) ->
  http.ReqBody req = body.
Proof.
  unfold handlers.forwardToLRS.
  destruct (negb _); simpl; [intros H; inversion H|].
  match goal with |- context [Do ?q] => destruct (Do q) end; simpl;
    intros H; apply list_elem_of_singleton in H; subst req; reflexivity.
Qed.

(** C2. For a write whose body parses into a batch of statements, the
    statements are checked in the order received: when statement [i] is
    refused and all statements before it are admitted, the response is
    403 with the text "Statement i: reason" and nothing is handed to the
    upstream client; when any statement is refused there is such a first
    refused statement, the response is that 403, and the upstream receives
    no request and no bytes; a request reaches
    the upstream client only when every statement is admitted, and then
    with the inbound body; and when every statement is admitted the
    handler forwards the inbound body. *)
Theorem C2_batch_write_atomicity tenant claims v r body statements :
  http.Body r = Some body ->
  parseStatements body = Some statements ->
  let x := proxyStatementsWrite tenant claims v r in
  (forall (i : nat) stmt err,
      statements !! i = Some stmt ->
      ValidateWrite v claims stmt = Some err ->
      (forall (j : nat) stmt', (j < i)%nat -> statements !! j = Some stmt' ->
                       ValidateWrite v claims stmt' = None) ->
      x = handlers.answer
            (http.Error ("Statement " +:+ Go.itoa i +:+ ": " +:+ err)
                        http.StatusForbidden))
  /\ ((exists stmt, stmt ∈ statements /\ ValidateWrite v claims stmt <> None) ->
      (exists (i : nat) stmt err,
          statements !! i = Some stmt
          /\ ValidateWrite v claims stmt = Some err
          /\ (forall (j : nat) stmt', (j < i)%nat -> statements !! j = Some stmt' ->
                               ValidateWrite v claims stmt' = None)
          /\ x = handlers.answer
                   (http.Error ("Statement " +:+ Go.itoa i +:+ ": " +:+ err)
                               http.StatusForbidden))
      /\ http.StatusCode (handlers.Reply x) = 403
      /\ handlers.Upstream x = []
      /\ handlers.upstreamBytes x = "")
  /\ (forall req, req ∈ handlers.Upstream x ->
        Forall (fun stmt => ValidateWrite v claims stmt = None) statements
        /\ http.ReqBody req = Some body)
  /\ (Forall (fun stmt => ValidateWrite v claims stmt = None) statements ->
      x = forwardToLRS tenant r (Some body)).
Proof.
  intros Hbody Hparse x. subst x.
  unfold handlers.proxyStatementsWrite. rewrite Hbody, Hparse.
  split; [|split; [|split]].
  - intros i stmt err Hi Herr Hbefore.
    rewrite (firstDenied_first v claims statements 0 i stmt err Hi Herr Hbefore).
    reflexivity.
  - intros (stmt & Hin & Hdeny).
    destruct (firstDenied v claims 0 statements) as [[k err]|] eqn:Hfd.
    + split; [|split; [reflexivity|split; reflexivity]].
      apply firstDenied_Some in Hfd as (i & s & -> & Hi & Herr & Hbefore).
      exists i, s, err. repeat (split; [assumption|]). reflexivity.
    + apply (proj1 (firstDenied_None v claims 0 statements)) in Hfd.
      rewrite Forall_forall in Hfd.
      exfalso. apply Hdeny, Hfd, Hin.
  - intros req Hreq.
    destruct (firstDenied v claims 0 statements) as [[i err]|] eqn:Hfd.
    + simpl in Hreq. inversion Hreq.
    + split.
      * apply (proj1 (firstDenied_None v claims 0 statements)), Hfd.
      * apply forwardToLRS_body in Hreq. exact Hreq.
  - intros Hall.
    apply (proj2 (firstDenied_None v claims 0 statements)) in Hall.
    rewrite Hall. reflexivity.
Qed.

End StatementsWrite.

(** ** The token verifier *)

Section Verifier.

Variable ParseWithClaims : string -> jwt.Keyfunc -> jwt.Token + string.

Local Abbreviation JWTAuthMiddleware :=
  (middleware.JWTAuthMiddleware ParseWithClaims).

(** A token signed with another method than HMAC gets no key: the
    library reports the key function's error. *)
Lemma keyfunc_refuses_other_methods tenant token alg :
  jwt.Method token = jwt.SigningMethodOther alg ->
  middleware.keyfunc tenant token = inr jwt.ErrSignatureInvalid.
Proof. intros H. unfold middleware.keyfunc. rewrite H. reflexivity. Qed.

(** C8. Every failure of the token verifier is answered with HTTP 401.
    The text is "Invalid token" when the JWT library refuses the token
    (malformed token, wrong algorithm, bad signature, expired), when the
    token is not valid, and when the token's tenant differs from the
    resolved tenant; it is "Authorization required" for a missing header,
    "Invalid authorization format" for a header that is not
    "Bearer <token>", and "Invalid token claims" for claims of another
    type. *)
Theorem C8_verifier_failures_are_401 tenant r resp :
  JWTAuthMiddleware tenant r = middleware.Rejected resp ->
  let auth := http.Get (http.Header r) "Authorization" in
  let parsed tokenString :=
    ParseWithClaims tokenString (middleware.keyfunc tenant) in
  http.StatusCode resp = 401
  /\ ((auth = "" /\ resp = http.Error "Authorization required" 401)
      \/ (auth <> ""
          /\ (forall tokenString, Go.SplitN2 auth <> ["Bearer"; tokenString])
          /\ resp = http.Error "Invalid authorization format" 401)
      \/ (exists tokenString,
            Go.SplitN2 auth = ["Bearer"; tokenString]
            /\ (((exists err, parsed tokenString = inr err)
                 \/ (exists token, parsed tokenString = inl token
                                   /\ jwt.Valid token = false)
                 \/ (exists token claims,
                       parsed tokenString = inl token
                       /\ jwt.Valid token = true
                       /\ jwt.TokenClaims token = Some claims
                       /\ Claims.TenantID claims
                          <> TenantConfig.TenantID tenant))
                /\ resp = http.Error "Invalid token" 401
                \/ (exists token, parsed tokenString = inl token
                                  /\ jwt.Valid token = true
                                  /\ jwt.TokenClaims token = None)
                   /\ resp = http.Error "Invalid token claims" 401))).
Proof.
  intros H auth parsed. unfold middleware.JWTAuthMiddleware in H.
  fold auth in H.
  destruct (String.eqb auth "") eqn:Hauth.
  { apply String.eqb_eq in Hauth. injection H as <-.
    split; [reflexivity|]. left. split; [exact Hauth | reflexivity]. }
  apply String.eqb_neq in Hauth.
  assert (Hformat : forall l,
    Go.SplitN2 auth = l ->
    (forall tokenString, l <> ["Bearer"; tokenString]) ->
    middleware.Rejected
      (http.Error "Invalid authorization format" http.StatusUnauthorized)
      = middleware.Rejected resp ->
    http.StatusCode resp = 401
    /\ (auth <> ""
        /\ (forall tokenString, Go.SplitN2 auth <> ["Bearer"; tokenString])
        /\ resp = http.Error "Invalid authorization format" 401)).
  { intros l Hl Hne [= <-]. split; [reflexivity|].
    split; [exact Hauth|]. split; [|reflexivity]. rewrite Hl. exact Hne. }
  destruct (Go.SplitN2 auth) as [|scheme [|tokenString [|extra parts]]] eqn:Hsplit.
  - destruct (Hformat [] eq_refl ltac:(discriminate) H) as [Hc Hr]. auto.
  - destruct (Hformat [scheme] eq_refl ltac:(discriminate) H) as [Hc Hr]. auto.
  - destruct (negb (String.eqb scheme "Bearer")) eqn:Hscheme.
    { apply negb_eqb_true in Hscheme.
      destruct (Hformat [scheme; tokenString] eq_refl
                  ltac:(intros t [= ? ?]; contradiction) H) as [Hc Hr]. auto. }
    apply negb_eqb_false in Hscheme. subst scheme.
    fold (parsed tokenString) in H.
    destruct (parsed tokenString) as [token|err] eqn:Hparse.
    2: { injection H as <-. split; [reflexivity|]. right; right.
         exists tokenString. split; [reflexivity|]. left.
         split; [|reflexivity]. left. exists err. exact Hparse. }
    destruct (jwt.Valid token) eqn:Hvalid; simpl in H.
    2: { injection H as <-. split; [reflexivity|]. right; right.
         exists tokenString. split; [reflexivity|]. left.
         split; [|reflexivity]. right; left. exists token. auto. }
    destruct (jwt.TokenClaims token) as [claims|] eqn:Hclaims.
    2: { injection H as <-. split; [reflexivity|]. right; right.
         exists tokenString. split; [reflexivity|]. right.
         split; [|reflexivity]. exists token. auto. }
    destruct (negb (String.eqb _ _)) eqn:Htenant; [|discriminate].
    apply negb_eqb_true in Htenant.
    injection H as <-. split; [reflexivity|]. right; right.
    exists tokenString. split; [reflexivity|]. left.
    split; [|reflexivity]. right; right. exists token, claims. auto.
  - destruct (Hformat (scheme :: tokenString :: extra :: parts) eq_refl
                ltac:(discriminate) H) as [Hc Hr]. auto.
Qed.

End Verifier.

(** ** The token issuer *)

Section Issuer.

Variable decodeTokenRequest : string -> option TokenRequest.t.
Variable marshalTokenResponse : TokenResponse.t -> string.
Variable SignedString : string -> Claims.t -> string + string.

Local Abbreviation IssueToken :=
  (handlers.IssueToken decodeTokenRequest marshalTokenResponse SignedString).
Local Abbreviation tokenIssued := (handlers.tokenIssued marshalTokenResponse).

Lemma ValidatePermission_error scope err :
  models.ValidatePermission scope = Some err ->
  err = "invalid permission scope: " +:+ scope.
Proof.
  unfold models.ValidatePermission, Go.Errorf.
  destruct (bool_decide _); [discriminate | intros [= <-]; reflexivity].
Qed.

(** An [int64] keeps the integers of its range. *)
Lemma int64_in_range z : - 2 ^ 63 <= z < 2 ^ 63 -> Go.int64 z = z.
Proof. intros Hz. unfold Go.int64. rewrite Z.mod_small; lia. Qed.

(** A lifetime of at most 9223372036 seconds is added to the clock as it
    is: the token expires that many seconds after the second in which the
    clock was read. *)
Lemma expiresAt_in_range tenant now :
  -9223372036 <= TenantConfig.JWTTTLSeconds tenant <= 9223372036 ->
  handlers.expiresAt tenant now
  = now + TenantConfig.JWTTTLSeconds tenant * time.Second
  /\ jwt.NewNumericDate (handlers.expiresAt tenant now)
     = jwt.NewNumericDate now + TenantConfig.JWTTTLSeconds tenant.
Proof.
  intros Httl.
  assert (Hexp : handlers.expiresAt tenant now
                 = now + TenantConfig.JWTTTLSeconds tenant * time.Second).
  { unfold handlers.expiresAt, time.Add, time.times, time.Second.
    rewrite int64_in_range by lia. reflexivity. }
  split; [exact Hexp|]. rewrite Hexp.
  unfold jwt.NewNumericDate, time.Unix. apply Z.div_add. discriminate.
Qed.

(** A lifetime of 9223372037 seconds wraps around: the token that is
    minted on 2051-06-14 expired in 1759. *)
Lemma expiresAt_wraps_around :
  handlers.expiresAt Example.tenantLongLived Example.clock2051
  = Example.clock2051 - 9223372036709551616
  /\ jwt.NewNumericDate
       (handlers.expiresAt Example.tenantLongLived Example.clock2051)
     = -6653050490.
Proof. split; reflexivity. Qed.

(** The outcomes of [IssueToken], case by case. *)
Lemma IssueToken_cases tenant now now' r :
  let x := IssueToken tenant now now' r in
  let decoded := http.Body r ≫= decodeTokenRequest in
  (http.StatusCode (handlers.Reply x) = 400
   <-> decoded = None
       \/ exists req,
            decoded = Some req
            /\ (models.ValidatePermission
                  (Permissions.Write (TokenRequest.Permissions req)) <> None
                \/ models.ValidatePermission
                     (Permissions.Read (TokenRequest.Permissions req)) <> None))
  /\ (forall req tokenString,
        decoded = Some req ->
        models.ValidatePermission
          (Permissions.Write (TokenRequest.Permissions req)) = None ->
        models.ValidatePermission
          (Permissions.Read (TokenRequest.Permissions req)) = None ->
        SignedString (TenantConfig.JWTSecret tenant)
          (handlers.newClaims tenant now now' req) = inl tokenString ->
        x = handlers.answer
              (tokenIssued tokenString (handlers.expiresAt tenant now)))
  /\ handlers.Upstream x = [].
Proof.
  intros x decoded. subst x. unfold handlers.IssueToken. fold decoded.
  destruct decoded as [req|].
  2: { split; [|split]; [|intros ? ? [=]|reflexivity].
       split; [intros _; left; reflexivity | reflexivity]. }
  destruct (models.ValidatePermission (Permissions.Write _)) as [e1|] eqn:Hw.
  { split; [|split]; [|intros ? ? [= <-]; congruence|reflexivity].
    split; [|reflexivity]. intros _. right. exists req.
    split; [reflexivity|]. left. congruence. }
  destruct (models.ValidatePermission (Permissions.Read _)) as [e2|] eqn:Hr.
  { split; [|split]; [|intros ? ? [= <-]; congruence|reflexivity].
    split; [|reflexivity]. intros _. right. exists req.
    split; [reflexivity|]. right. congruence. }
  destruct (SignedString _ _) as [tok|e] eqn:Hs.
  - split; [|split]; [| |reflexivity].
    + split; [discriminate|].
      intros [[=]|(req' & [= <-] & [H|H])]; congruence.
    + intros req' tok' [= <-] _ _ Hs'. rewrite Hs in Hs'.
      injection Hs' as <-. reflexivity.
  - split; [|split]; [| |reflexivity].
    + split; [discriminate|].
      intros [[=]|(req' & [= <-] & [H|H])]; congruence.
    + intros req' tok' [= <-] _ _ Hs'. rewrite Hs in Hs'. discriminate.
Qed.

(** C6. Token issuance answers 400 exactly when the request body does
    not decode or the write or the read scope is outside the valid scope
    set.  Actor, registration, activity id and group are not examined:
    for every decoded request with valid scopes, whatever these fields
    hold, the token is minted and returned as soon as signing succeeds,
    with the expiry that the handler computes from the clock and the
    tenant's token lifetime. *)
Theorem C6_issuance_rejects_on_body_and_scopes_only tenant now now' r :
  let x := IssueToken tenant now now' r in
  let decoded := http.Body r ≫= decodeTokenRequest in
  (http.StatusCode (handlers.Reply x) = 400
   <-> decoded = None
       \/ exists req,
            decoded = Some req
            /\ (models.ValidatePermission
                  (Permissions.Write (TokenRequest.Permissions req)) <> None
                \/ models.ValidatePermission
                     (Permissions.Read (TokenRequest.Permissions req)) <> None))
  /\ (forall req tokenString,
        decoded = Some req ->
        models.ValidatePermission
          (Permissions.Write (TokenRequest.Permissions req)) = None ->
        models.ValidatePermission
          (Permissions.Read (TokenRequest.Permissions req)) = None ->
        SignedString (TenantConfig.JWTSecret tenant)
          (handlers.newClaims tenant now now' req) = inl tokenString ->
        x = handlers.answer
              (tokenIssued tokenString (handlers.expiresAt tenant now))).
Proof.
  intros x decoded.
  destruct (IssueToken_cases tenant now now' r) as (H400 & Hmint & _).
  split; [exact H400 | exact Hmint].
Qed.

(** C7. Token issuance does not refuse a read-only scope requested for
    write.  [ValidatePermission] accepts actor-course-registration-scoped,
    actor-activity-all-registrations and actor-cross-course-certification
    as a write scope just as it accepts them as a read scope, so a request
    with such a write scope and a valid read scope is never answered with
    400, and its token is minted as soon as signing succeeds. *)
Theorem C7_issuance_accepts_read_only_write_scope tenant now now' r req :
  http.Body r ≫= decodeTokenRequest = Some req ->
  Permissions.Write (TokenRequest.Permissions req) ∈ Spec.readOnlyScopes ->
  models.ValidatePermission
    (Permissions.Read (TokenRequest.Permissions req)) = None ->
  let x := IssueToken tenant now now' r in
  models.ValidatePermission
    (Permissions.Write (TokenRequest.Permissions req)) = None
  /\ http.StatusCode (handlers.Reply x) <> 400
  /\ (forall tokenString,
        SignedString (TenantConfig.JWTSecret tenant)
          (handlers.newClaims tenant now now' req) = inl tokenString ->
        x = handlers.answer
              (tokenIssued tokenString (handlers.expiresAt tenant now))).
Proof.
  intros Hdec Hscope Hread x.
  assert (Hwrite : models.ValidatePermission
                     (Permissions.Write (TokenRequest.Permissions req)) = None).
  { unfold Spec.readOnlyScopes in Hscope.
    repeat (apply elem_of_cons in Hscope as [->|Hscope]);
      [reflexivity | reflexivity | reflexivity | inversion Hscope]. }
  pose proof (IssueToken_cases tenant now now' r) as (H400 & Hmint & _).
  fold x in H400, Hmint. split; [exact Hwrite|]. split.
  - intros Hbad. apply H400 in Hbad as [Hnone|(req' & Hsome & [H|H])].
    + congruence.
    + rewrite Hdec in Hsome. injection Hsome as <-. congruence.
    + rewrite Hdec in Hsome. injection Hsome as <-. congruence.
  - intros tok Hs. apply (Hmint req tok Hdec Hwrite Hread Hs).
Qed.

End Issuer.

(** ** The agent profile handler *)

(** [ProxyAgentProfile] forwards like the activity profile handler: neither
    the claims nor the agent parameter take part. *)
Lemma ProxyAgentProfile_forwards newRequestOK Do tenant claims r :
  handlers.ProxyAgentProfile newRequestOK Do tenant claims r
  = handlers.forwardWithBody newRequestOK Do tenant r.
Proof. reflexivity. Qed.

(** C5. A GET of [/xapi/agents/profile] that carries the verified token of
    the learner with mbox mailto:a@x and openid https://id.example/a and
    asks for the profile of the agent mailto:b@x, whose agent parameter
    does not identify the token's actor, is forwarded: one request reaches
    the upstream client and its response is returned. *)
Theorem C5_agent_profile_forwards_foreign_agent :
  let claims := Scenario.claimsOpenID in
  let r := Scenario.getStrangerProfile in
  let x := handlers.xapiAgentsProfile Scenario.anyRequestOK Scenario.lrsOK
             (Scenario.parsesTo claims) (Scenario.tenant "strict") r in
  Spec.identifiesActor claims (http.Get (http.Query r) "agent") = false
  /\ length (handlers.Upstream x) = 1%nat
  /\ http.StatusCode (handlers.Reply x) = 200.
Proof. vm_compute. repeat split; reflexivity. Qed.

(** ** Evaluation at concrete tokens *)

(** C3. Under the permissive policy, a token whose write scope is
    course-aggregate-only, which has no branch in the evaluator, is refused
    by [ValidateWrite], while [ValidateRead] admits the same scope under the
    same policy. *)
Theorem C3_unknown_write_scope_refused_under_permissive :
  let v := validator.NewPermissionValidator "permissive" in
  validator.ValidateWrite Scenario.fmtNothing Scenario.fmtNothing v
    Scenario.claimsAggregate Scenario.statementS1
  = Some "unsupported write permission scope: course-aggregate-only"
  /\ validator.ValidateRead v Scenario.claimsAggregate ∅ = None.
Proof. split; reflexivity. Qed.

(** C4. A token with read scope group-activity-registration-scoped and no
    group is admitted by [ValidateRead], on the empty query and on a query
    for the token's activity and registration. *)
Theorem C4_group_read_admitted_without_group :
  let v := validator.NewPermissionValidator "strict" in
  let claims := Scenario.claimsGroupScopeNoGroup in
  Claims.Group claims = None
  /\ Permissions.Read (Claims.Permissions claims)
     = "group-activity-registration-scoped"
  /\ validator.ValidateRead v claims ∅ = None
  /\ validator.ValidateRead v claims
       (<["activity" := "https://ex/a"]> (<["registration" := "R1"]> ∅)) = None.
Proof. repeat split; reflexivity. Qed.

(** A statement in whose context the registration is absent is admitted
    under a token whose registration is empty. *)
Lemma C1_counterexample_empty_registration :
  let claims := Scenario.claimsNoRegistration in
  let stmt := Scenario.statementNoRegistration in
  Permissions.Write (Claims.Permissions claims)
    = "actor-activity-registration-scoped"
  /\ (Context.Registration <$> Statement.Context stmt) = Some ""
  /\ validator.ValidateWrite Scenario.fmtNothing Scenario.fmtNothing
       (validator.NewPermissionValidator "strict") claims stmt = None.
Proof. repeat split; reflexivity. Qed.

(** A token request with empty actor, registration and activity id and
    with a malformed group is answered 200 with a token. *)
Lemma C6_counterexample_empty_request_minted :
  let req := Scenario.emptyTokenRequest in
  let body := Scenario.emptyTokenRequestJSON in
  let x := handlers.IssueToken (Scenario.decodes body req) Scenario.marshalToken
             Scenario.signs (Scenario.tenant "strict")
             Example.clock Example.clock (Scenario.postToken body) in
  TokenRequest.Actor req = Actor.zero
  /\ TokenRequest.Registration req = ""
  /\ TokenRequest.ActivityID req = ""
  /\ TokenRequest.Group req = Some (Group.mk "Agent" "" [])
  /\ http.StatusCode (handlers.Reply x) = 200
  /\ http.RespBody (handlers.Reply x) = "h.p.s" +:+ Go.LF.
Proof. vm_compute. repeat split; reflexivity. Qed.

(** A token request whose write scope is actor-course-registration-scoped
    is answered 200 with a token. *)
Lemma C7_counterexample_read_only_write_scope_minted :
  let req := Scenario.courseWriteTokenRequest in
  let body := Scenario.courseWriteTokenRequestJSON in
  let x := handlers.IssueToken (Scenario.decodes body req) Scenario.marshalToken
             Scenario.signs (Scenario.tenant "strict")
             Example.clock Example.clock (Scenario.postToken body) in
  Permissions.Write (TokenRequest.Permissions req)
    = "actor-course-registration-scoped"
  /\ http.StatusCode (handlers.Reply x) = 200
  /\ http.RespBody (handlers.Reply x) = "h.p.s" +:+ Go.LF.
Proof. vm_compute. repeat split; reflexivity. Qed.

(** A missing header and a refused token are both answered 401, with
    different texts. *)
Lemma C8_counterexample_distinct_texts :
  let verify := middleware.JWTAuthMiddleware Scenario.parsesNever
                  (Scenario.tenant "strict") in
  verify Scenario.getWithoutHeader
    = middleware.Rejected (http.Error "Authorization required" 401)
  /\ verify Scenario.getWithBadToken
     = middleware.Rejected (http.Error "Invalid token" 401)
  /\ http.RespBody (http.Error "Authorization required" 401)
     <> http.RespBody (http.Error "Invalid token" 401).
Proof. split; [reflexivity|]. split; [reflexivity|]. discriminate. Qed.

(** ** The theorems at the scenarios' values *)

(** Scenario S1: the statement of the learner, on the token's activity and
    registration, is admitted. *)
Lemma C1_default_write_isolation_witness :
  Permissions.Write (Claims.Permissions Scenario.claimsS1)
    = "actor-activity-registration-scoped"
  /\ validator.ValidateWrite Scenario.fmtNothing Scenario.fmtNothing
       (validator.NewPermissionValidator "strict")
       Scenario.claimsS1 Scenario.statementS1 = None.
Proof.
  split; [reflexivity|].
  apply (proj2 (proj1 (C1_default_write_isolation
                         Scenario.fmtNothing Scenario.fmtNothing
                         (validator.NewPermissionValidator "strict")
                         Scenario.claimsS1 Scenario.statementS1 eq_refl))).
  split; [reflexivity|]. split; [reflexivity|].
  exists (Context.mk "R1" None None []). split; reflexivity.
Defined.

(** Scenario S8: of three statements, statement 1 has the wrong activity;
    the answer is 403 and names index 1. *)
Lemma C2_batch_write_atomicity_witness :
  let body := Scenario.batchS8JSON in
  let unmarshal := Scenario.decodes body Scenario.batchS8 in
  let r := Scenario.postStatements body in
  http.Body r = Some body
  /\ handlers.parseStatements unmarshal Scenario.decodesNever body
     = Some Scenario.batchS8
  /\ handlers.proxyStatementsWrite Scenario.fmtNothing Scenario.fmtNothing
       unmarshal Scenario.decodesNever Scenario.anyRequestOK Scenario.lrsOK
       (Scenario.tenant "strict") Scenario.claimsS1
       (validator.NewPermissionValidator "strict") r
     = handlers.answer
         (http.Error
            ("Statement " +:+ Go.itoa 1 +:+ ": "
             +:+ "write denied: activity mismatch (expected https://ex/a, got https://ex/other)")
            http.StatusForbidden).
Proof.
  intros body unmarshal r.
  split; [reflexivity|]. split; [reflexivity|].
  apply (proj1 (C2_batch_write_atomicity
                  Scenario.fmtNothing Scenario.fmtNothing
                  unmarshal Scenario.decodesNever
                  Scenario.anyRequestOK Scenario.lrsOK
                  (Scenario.tenant "strict") Scenario.claimsS1
                  (validator.NewPermissionValidator "strict")
                  r body Scenario.batchS8 eq_refl eq_refl)
          1%nat
          (Scenario.statement Scenario.learner "https://ex/other"
             (Scenario.registration "R1"))
          "write denied: activity mismatch (expected https://ex/a, got https://ex/other)"
          eq_refl eq_refl).
  intros j stmt' Hj Hlook.
  destruct j as [|j]; [|lia].
  injection Hlook as <-. reflexivity.
Defined.

(** A token request with write scope actor-course-registration-scoped
    passes issuance. *)
Lemma C7_issuance_accepts_read_only_write_scope_witness :
  let req := Scenario.courseWriteTokenRequest in
  let body := Scenario.courseWriteTokenRequestJSON in
  let x := handlers.IssueToken (Scenario.decodes body req) Scenario.marshalToken
             Scenario.signs (Scenario.tenant "strict")
             Example.clock Example.clock (Scenario.postToken body) in
  http.Body (Scenario.postToken body) ≫= Scenario.decodes body req = Some req
  /\ Permissions.Write (TokenRequest.Permissions req) ∈ Spec.readOnlyScopes
  /\ models.ValidatePermission
       (Permissions.Read (TokenRequest.Permissions req)) = None
  /\ http.StatusCode (handlers.Reply x) <> 400.
Proof.
  intros req body x.
  assert (Hscope : Permissions.Write (TokenRequest.Permissions req)
                   ∈ Spec.readOnlyScopes) by (apply list_elem_of_here).
  split; [reflexivity|]. split; [exact Hscope|]. split; [reflexivity|].
  apply (proj1 (proj2 (C7_issuance_accepts_read_only_write_scope
                         (Scenario.decodes body req)
                         Scenario.marshalToken Scenario.signs
                         (Scenario.tenant "strict") Example.clock Example.clock
                         (Scenario.postToken body) req
                         eq_refl Hscope eq_refl))).
Defined.

(** A request without Authorization header is answered 401. *)
Lemma C8_verifier_failures_are_401_witness :
  middleware.JWTAuthMiddleware Scenario.parsesNever (Scenario.tenant "strict")
    Scenario.getWithoutHeader
    = middleware.Rejected (http.Error "Authorization required" 401)
  /\ http.StatusCode (http.Error "Authorization required" 401) = 401.
Proof.
  split; [reflexivity|].
  apply (proj1 (C8_verifier_failures_are_401 Scenario.parsesNever
                  (Scenario.tenant "strict") Scenario.getWithoutHeader
                  (http.Error "Authorization required" 401) eq_refl)).
Defined.

(** With the token of scenario S1, whose actor has no openid, a read that
    asks for the statements of mailto:b@x gets the result of a read that
    asks for those of mailto:a@x. *)
Lemma C10_empty_openid_agent_independence_witness :
  let v := validator.NewPermissionValidator "strict" in
  let q1 : gmap string string := {[ "agent" := Scenario.agentJSON "mailto:b@x" ]} in
  let q2 : gmap string string := {[ "agent" := Scenario.agentJSON "mailto:a@x" ]} in
  Actor.OpenID (Claims.Actor Scenario.claimsS1) = ""
  /\ (forall k : string, k <> "agent" -> q1 !! k = q2 !! k)
  /\ validator.ValidateRead v Scenario.claimsS1 q1
     = validator.ValidateRead v Scenario.claimsS1 q2
  /\ validator.ValidateStateAccess v Scenario.claimsS1 "https://ex/a"
       (Scenario.agentJSON "mailto:b@x") "R1"
     = validator.ValidateStateAccess v Scenario.claimsS1 "https://ex/a"
         (Scenario.agentJSON "mailto:a@x") "R1".
Proof.
  intros v q1 q2.
  assert (Hsame : forall k : string, k <> "agent" -> q1 !! k = q2 !! k).
  { intros k Hk. unfold q1, q2.
    rewrite !lookup_singleton_ne by congruence. reflexivity. }
  split; [reflexivity|]. split; [exact Hsame|].
  apply (proj2 (C10_empty_openid_agent_independence v Scenario.claimsS1 q1 q2
                  "https://ex/a" (Scenario.agentJSON "mailto:b@x")
                  (Scenario.agentJSON "mailto:a@x") "R1" eq_refl Hsame)).
Defined.

(** * Further properties of the code *)

(** ** Actor equality and group membership *)

(** X1. [Actor.Equals] is symmetric: comparing [a] with [b] gives the
    result of comparing [b] with [a].  It is reflexive only on identified
    actors: an actor equals itself exactly when it carries a non-empty
    mbox, mbox_sha1sum or openid, or an account, so that an actor without
    identifier, such as the zero value, is not equal to itself. *)
Theorem X1_actor_equals_symmetric_reflexive_on_identified (a b : Actor.t) :
  Actor.Equals a b = Actor.Equals b a
  /\ (Actor.Equals a a = true
      <-> Actor.Mbox a <> "" \/ Actor.MboxSHA1 a <> "" \/ Actor.OpenID a <> ""
          \/ Actor.Account a <> None).
Proof.
  split.
  - unfold Actor.Equals.
    rewrite (andb_comm (Go.nonEmpty (Actor.Mbox a))),
      (andb_comm (Go.nonEmpty (Actor.MboxSHA1 a))),
      (andb_comm (Go.nonEmpty (Actor.OpenID a))),
      (String.eqb_sym (Actor.Mbox a)), (String.eqb_sym (Actor.MboxSHA1 a)),
      (String.eqb_sym (Actor.OpenID a)).
    destruct (Actor.Account a) as [x|], (Actor.Account b) as [y|];
      try reflexivity.
    rewrite (String.eqb_sym (Account.HomePage x)),
      (String.eqb_sym (Account.Name x)). reflexivity.
  - unfold Actor.Equals. rewrite !andb_diag, !String.eqb_refl.
    destruct (Go.nonEmpty (Actor.Mbox a)) eqn:Hm.
    { apply nonEmpty_true in Hm. split; auto. }
    destruct (Go.nonEmpty (Actor.MboxSHA1 a)) eqn:Hs.
    { apply nonEmpty_true in Hs. split; auto. }
    destruct (Go.nonEmpty (Actor.OpenID a)) eqn:Ho.
    { apply nonEmpty_true in Ho. split; auto. }
    apply nonEmpty_false in Hm, Hs, Ho.
    destruct (Actor.Account a) as [x|].
    + rewrite !String.eqb_refl. split; [intros _|reflexivity].
      right; right; right. discriminate.
    + split; [discriminate|]. intros [H|[H|[H|H]]]; contradiction.
Qed.

(** X2. [Group.IsMember] answers true exactly when some member of the
    group equals the actor under [Actor.Equals], with the member as the
    receiver of the comparison; a group without members has no member. *)
Theorem X2_is_member_iff_some_member_equals (g : Group.t) (actor : Actor.t) :
  Group.IsMember g actor = true
  <-> exists member, member ∈ Group.Member g
                     /\ Actor.Equals member actor = true.
Proof.
  unfold Group.IsMember. induction (Group.Member g) as [|m rest IH]; simpl.
  - split; [discriminate|]. intros (member & Hin & _). inversion Hin.
  - destruct (Actor.Equals m actor) eqn:Hm.
    + split; [intros _|reflexivity]. exists m. split; [left|exact Hm].
    + rewrite IH. split.
      * intros (member & Hin & Heq). exists member. split; [right|]; assumption.
      * intros (member & Hin & Heq). apply elem_of_cons in Hin as [->|Hin].
        -- congruence.
        -- exists member. split; assumption.
Qed.

(** ** The agent check *)

Lemma prefix_iff (sub s : string) :
  String.prefix sub s = true <-> exists post, s = sub +:+ post.
Proof.
  revert s. induction sub as [|c sub IH]; intros s.
  - rewrite prefix_empty. split; [intros _; exists s; reflexivity | reflexivity].
  - destruct s as [|d s]; simpl.
    + split; [discriminate | intros (post & [=])].
    + destruct (Ascii.ascii_dec c d) as [->|Hne].
      * rewrite IH. split.
        -- intros (post & ->). exists post. reflexivity.
        -- intros (post & [= ->]). exists post. reflexivity.
      * split; [discriminate|]. intros (post & [= <- _]). contradiction.
Qed.

(** [Go.Contains] is the substring test. *)
Lemma Contains_iff (s sub : string) :
  Go.Contains s sub = true <-> exists pre post, s = pre +:+ sub +:+ post.
Proof.
  induction s as [|c s IH]; cbn [Go.Contains].
  - rewrite orb_false_r, prefix_iff. split.
    + intros (post & H). exists "", post. exact H.
    + intros (pre & post & H). destruct pre; [|discriminate].
      exists post. exact H.
  - rewrite orb_true_iff, IH, prefix_iff. split.
    + intros [(post & H)|(pre & post & H)].
      * exists "", post. exact H.
      * exists (String c pre), post. simpl. rewrite H. reflexivity.
    + intros (pre & post & H). destruct pre as [|d pre]; simpl in H.
      * left. exists post. exact H.
      * right. injection H as -> ->. exists pre, post. reflexivity.
Qed.

(** X3. The agent check of the read validators and of
    [ValidateStateAccess] passes exactly when the raw agent parameter has
    the claims' mbox or the claims' openid as a contiguous substring,
    wherever it stands in the parameter. *)
Theorem X3_agent_check_is_substring_test (claims : Claims.t) (agent : string) :
  validator.agentMismatch claims agent = false
  <-> (exists pre post,
         agent = pre +:+ Actor.Mbox (Claims.Actor claims) +:+ post)
      \/ (exists pre post,
            agent = pre +:+ Actor.OpenID (Claims.Actor claims) +:+ post).
Proof.
  unfold validator.agentMismatch.
  rewrite andb_false_iff, !negb_false_iff, !Contains_iff. reflexivity.
Qed.

(** ** Write scopes *)

(** The Go idiom [if bad { return err }; rest]. *)
Lemma guard_None (bad : bool) (err : string) (rest : Go.error) :
  (if bad then Go.Errorf err else rest) = None <-> bad = false /\ rest = None.
Proof. destruct bad; split; [discriminate | intros [[=] _] | auto | intros [_ H]; exact H]. Qed.

Section WriteScopes.

Variable fmtActor : Actor.t -> string.
Variable fmtContext : option Context.t -> string.

Local Abbreviation ValidateWrite :=
  (validator.ValidateWrite fmtActor fmtContext).

(** X4. Under the write scope group-activity-registration-scoped,
    [ValidateWrite] admits a statement exactly when the statement's actor
    has object type "Group", the token carries a group whose name is the
    name of the statement's actor, the token's actor is a member of that
    group, the statement's object id is the token's activity id, and the
    statement's context is present with the token's registration. *)
Theorem X4_group_write_isolation v claims stmt :
  Permissions.Write (Claims.Permissions claims)
    = "group-activity-registration-scoped" ->
  (ValidateWrite v claims stmt = None
   <-> Actor.ObjectType (Statement.Actor stmt) = "Group"
       /\ (exists g, Claims.Group claims = Some g
                     /\ Actor.Name (Statement.Actor stmt) = Group.Name g
                     /\ Group.IsMember g (Claims.Actor claims) = true)
       /\ Object.ID (Statement.Object stmt) = Claims.ActivityID claims
       /\ exists ctx, Statement.Context stmt = Some ctx
                      /\ Context.Registration ctx = Claims.Registration claims).
Proof.
  intros Hscope. unfold validator.ValidateWrite. rewrite Hscope. simpl.
  unfold validator.validateGroupActivityRegistration.
  rewrite guard_None, negb_eqb_false.
  rewrite <- registrationMismatch_false.
  destruct (Claims.Group claims) as [g|].
  - rewrite !guard_None, !negb_eqb_false, negb_false_iff. split.
    + intros (Htype & Hname & Hmember & Hact & Hreg & _).
      split; [exact Htype|]. split; [exists g; auto|]. auto.
    + intros (Htype & (g' & [= <-] & Hname & Hmember) & Hact & Hreg).
      repeat split; assumption.
  - split; [intros [_ [=]]|]. intros (_ & (g & [=] & _) & _).
Qed.

(** X5. [ValidateWrite] never consults the validator's policy, and it
    admits a statement only under the write scopes
    actor-activity-registration-scoped and
    group-activity-registration-scoped: under "false", under a read-only
    scope and under any other scope every statement is denied. *)
Theorem X5_write_admits_only_under_two_scopes v v' claims stmt :
  ValidateWrite v claims stmt = ValidateWrite v' claims stmt
  /\ (ValidateWrite v claims stmt = None ->
      Permissions.Write (Claims.Permissions claims)
        = "actor-activity-registration-scoped"
      \/ Permissions.Write (Claims.Permissions claims)
         = "group-activity-registration-scoped").
Proof.
  split; [reflexivity|]. unfold validator.ValidateWrite.
  destruct (String.eqb _ "false"); [discriminate|].
  destruct (String.eqb _ "actor-activity-registration-scoped") eqn:H1.
  { apply String.eqb_eq in H1. auto. }
  destruct (String.eqb _ "group-activity-registration-scoped") eqn:H2.
  { apply String.eqb_eq in H2. auto. }
  discriminate.
Qed.

End WriteScopes.

(** The team's statement is admitted under the team's token. *)
Lemma X4_group_write_isolation_witness :
  Permissions.Write (Claims.Permissions Example.claimsTeam)
    = "group-activity-registration-scoped"
  /\ validator.ValidateWrite Scenario.fmtNothing Scenario.fmtNothing
       (validator.NewPermissionValidator "strict")
       Example.claimsTeam Example.statementTeam = None.
Proof.
  split; [reflexivity|].
  apply (proj2 (X4_group_write_isolation
                  Scenario.fmtNothing Scenario.fmtNothing
                  (validator.NewPermissionValidator "strict")
                  Example.claimsTeam Example.statementTeam eq_refl)).
  split; [reflexivity|]. split.
  - exists Example.team. split; [reflexivity|]. split; reflexivity.
  - split; [reflexivity|].
    exists (Context.mk "R1" None None []). split; reflexivity.
Defined.

(** ** Read scopes *)

(** A query parameter is absent or empty, or else it has the expected
    value: the shape of every optional read constraint. *)
Lemma optional_match (value expected : string) :
  Go.nonEmpty value && negb (String.eqb value expected) = false
  <-> value = "" \/ value = expected.
Proof.
  rewrite andb_false_iff, nonEmpty_false, negb_eqb_false. reflexivity.
Qed.

Lemma optional_agent claims (agent : string) :
  Go.nonEmpty agent && validator.agentMismatch claims agent = false
  <-> agent = "" \/ validator.agentMismatch claims agent = false.
Proof. rewrite andb_false_iff, nonEmpty_false. reflexivity. Qed.

(** X6. Under the read scope actor-activity-registration-scoped,
    [ValidateRead] admits a query exactly when each of the parameters
    agent, activity and registration is absent or empty, or else passes its
    check: the agent passes the agent check, the activity is the token's
    activity id, the registration is the token's registration. *)
Theorem X6_default_read_isolation v claims (query : gmap string string) :
  Permissions.Read (Claims.Permissions claims)
    = "actor-activity-registration-scoped" ->
  let agent := Go.index query "agent" in
  let activity := Go.index query "activity" in
  let reg := Go.index query "registration" in
  validator.ValidateRead v claims query = None
  <-> (agent = "" \/ validator.agentMismatch claims agent = false)
      /\ (activity = "" \/ activity = Claims.ActivityID claims)
      /\ (reg = "" \/ reg = Claims.Registration claims).
Proof.
  intros Hscope agent activity reg.
  unfold validator.ValidateRead. rewrite Hscope. simpl.
  unfold validator.validateActorActivityRegistrationRead.
  fold agent activity reg.
  rewrite !guard_None, optional_agent, !optional_match. tauto.
Qed.

(** X7. Under the read scope actor-course-registration-scoped,
    [ValidateRead] admits a query exactly when the agent parameter is
    absent or passes the agent check and the registration parameter is
    absent or is the token's registration; the activity parameter is not
    looked at. *)
Theorem X7_course_read_leaves_activity_free v claims (query : gmap string string) :
  Permissions.Read (Claims.Permissions claims)
    = "actor-course-registration-scoped" ->
  let agent := Go.index query "agent" in
  let reg := Go.index query "registration" in
  (validator.ValidateRead v claims query = None
   <-> (agent = "" \/ validator.agentMismatch claims agent = false)
       /\ (reg = "" \/ reg = Claims.Registration claims))
  /\ forall activity,
       validator.ValidateRead v claims (<["activity" := activity]> query)
       = validator.ValidateRead v claims query.
Proof.
  intros Hscope agent reg.
  unfold validator.ValidateRead. rewrite Hscope. simpl.
  unfold validator.validateActorCourseRegistrationRead. split.
  - fold agent reg. rewrite !guard_None, optional_agent, optional_match. tauto.
  - intros activity. unfold Go.index.
    rewrite !lookup_insert_ne by discriminate. reflexivity.
Qed.

(** X8. Under the read scope actor-activity-all-registrations,
    [ValidateRead] admits a query exactly when the agent parameter is
    absent or passes the agent check and the activity parameter is absent
    or is the token's activity id; the registration parameter is not looked
    at. *)
Theorem X8_all_registrations_read_leaves_registration_free
    v claims (query : gmap string string) :
  Permissions.Read (Claims.Permissions claims)
    = "actor-activity-all-registrations" ->
  let agent := Go.index query "agent" in
  let activity := Go.index query "activity" in
  (validator.ValidateRead v claims query = None
   <-> (agent = "" \/ validator.agentMismatch claims agent = false)
       /\ (activity = "" \/ activity = Claims.ActivityID claims))
  /\ forall reg,
       validator.ValidateRead v claims (<["registration" := reg]> query)
       = validator.ValidateRead v claims query.
Proof.
  intros Hscope agent activity.
  unfold validator.ValidateRead. rewrite Hscope. simpl.
  unfold validator.validateActorActivityAllRegistrationsRead. split.
  - fold agent activity.
    rewrite !guard_None, optional_agent, optional_match. tauto.
  - intros reg. unfold Go.index.
    rewrite !lookup_insert_ne by discriminate. reflexivity.
Qed.

(** X9. Under the read scope group-activity-registration-scoped,
    [ValidateRead] admits a query exactly when the activity parameter is
    absent or is the token's activity id and the registration parameter is
    absent or is the token's registration; neither the agent parameter nor
    the token's group is looked at. *)
Theorem X9_group_read_ignores_agent_and_group
    v claims (query : gmap string string) :
  Permissions.Read (Claims.Permissions claims)
    = "group-activity-registration-scoped" ->
  let activity := Go.index query "activity" in
  let reg := Go.index query "registration" in
  (validator.ValidateRead v claims query = None
   <-> (activity = "" \/ activity = Claims.ActivityID claims)
       /\ (reg = "" \/ reg = Claims.Registration claims))
  /\ forall agent,
       validator.ValidateRead v claims (<["agent" := agent]> query)
       = validator.ValidateRead v claims query.
Proof.
  intros Hscope activity reg.
  unfold validator.ValidateRead. rewrite Hscope. simpl.
  unfold validator.validateGroupActivityRegistrationRead. split.
  - fold activity reg. rewrite !guard_None, !optional_match. tauto.
  - intros agent. unfold Go.index.
    rewrite !lookup_insert_ne by discriminate. reflexivity.
Qed.

(** The learner's query for the own statements on the token's activity and
    registration is admitted. *)
Lemma X6_default_read_isolation_witness :
  let query : gmap string string :=
    {[ "agent" := Scenario.agentJSON "mailto:a@x";
       "activity" := "https://ex/a"; "registration" := "R1" ]} in
  Permissions.Read (Claims.Permissions Scenario.claimsS1)
    = "actor-activity-registration-scoped"
  /\ validator.ValidateRead (validator.NewPermissionValidator "strict")
       Scenario.claimsS1 query = None.
Proof.
  intros query. split; [reflexivity|].
  apply (proj2 (X6_default_read_isolation
                  (validator.NewPermissionValidator "strict")
                  Scenario.claimsS1 query eq_refl)).
  split; [right; reflexivity|]. split; right; reflexivity.
Defined.

(** Scenario S5: with the course-wide read scope, a query for another
    activity under the token's registration is admitted. *)
Lemma X7_course_read_leaves_activity_free_witness :
  Permissions.Read (Claims.Permissions Example.claimsCourseRead)
    = "actor-course-registration-scoped"
  /\ validator.ValidateRead (validator.NewPermissionValidator "strict")
       Example.claimsCourseRead Example.queryS5 = None.
Proof.
  split; [reflexivity|].
  apply (proj2 (proj1 (X7_course_read_leaves_activity_free
                         (validator.NewPermissionValidator "strict")
                         Example.claimsCourseRead Example.queryS5 eq_refl))).
  split; [left; reflexivity | right; reflexivity].
Defined.

(** With the all-registrations read scope, asking for registration R2
    changes nothing. *)
Lemma X8_all_registrations_read_leaves_registration_free_witness :
  let v := validator.NewPermissionValidator "strict" in
  Permissions.Read (Claims.Permissions Example.claimsAllRegistrations)
    = "actor-activity-all-registrations"
  /\ validator.ValidateRead v Example.claimsAllRegistrations
       (<["registration" := "R2"]> ∅)
     = validator.ValidateRead v Example.claimsAllRegistrations ∅.
Proof.
  intros v. split; [reflexivity|].
  apply (proj2 (X8_all_registrations_read_leaves_registration_free
                  v Example.claimsAllRegistrations ∅ eq_refl) "R2").
Defined.

(** With the group read scope, asking for the stranger's statements
    changes nothing. *)
Lemma X9_group_read_ignores_agent_and_group_witness :
  let v := validator.NewPermissionValidator "strict" in
  Permissions.Read (Claims.Permissions Example.claimsTeam)
    = "group-activity-registration-scoped"
  /\ validator.ValidateRead v Example.claimsTeam
       (<["agent" := Scenario.agentJSON "mailto:b@x"]> ∅)
     = validator.ValidateRead v Example.claimsTeam ∅.
Proof.
  intros v. split; [reflexivity|].
  apply (proj2 (X9_group_read_ignores_agent_and_group
                  v Example.claimsTeam ∅ eq_refl)
               (Scenario.agentJSON "mailto:b@x")).
Defined.

(** ** State access *)

(** X10. [ValidateStateAccess] admits exactly when the agent parameter
    passes the agent check and, if the token's read scope is
    actor-activity-registration-scoped, the activity id and the
    registration are the token's.  The agent parameter is never optional
    here, and neither the policy nor any other read scope takes part. *)
Theorem X10_state_access_admission
    v claims (activityID agent registration : string) :
  validator.ValidateStateAccess v claims activityID agent registration = None
  <-> validator.agentMismatch claims agent = false
      /\ (Permissions.Read (Claims.Permissions claims)
            = "actor-activity-registration-scoped" ->
          activityID = Claims.ActivityID claims
          /\ registration = Claims.Registration claims).
Proof.
  unfold validator.ValidateStateAccess. rewrite guard_None.
  destruct (String.eqb _ "actor-activity-registration-scoped") eqn:Hscope.
  - apply String.eqb_eq in Hscope.
    rewrite !guard_None, !negb_eqb_false. tauto.
  - apply String.eqb_neq in Hscope. tauto.
Qed.

(** X11. A token whose read scope is "false" is refused every statement
    query by [ValidateRead], yet [ValidateStateAccess] admits it for every
    activity id and registration as soon as the agent parameter passes the
    agent check. *)
Theorem X11_read_false_does_not_close_state_access v claims :
  Permissions.Read (Claims.Permissions claims) = "false" ->
  (forall query, validator.ValidateRead v claims query <> None)
  /\ (forall activityID agent registration,
        validator.agentMismatch claims agent = false ->
        validator.ValidateStateAccess v claims activityID agent registration
        = None).
Proof.
  intros Hscope. split.
  - intros query. unfold validator.ValidateRead. rewrite Hscope. discriminate.
  - intros activityID agent registration Hagent.
    unfold validator.ValidateStateAccess. rewrite Hagent, Hscope. reflexivity.
Qed.

(** A token without read permission still reads the learner's state of
    any activity. *)
Lemma X11_read_false_does_not_close_state_access_witness :
  let v := validator.NewPermissionValidator "strict" in
  Permissions.Read (Claims.Permissions Example.claimsNoRead) = "false"
  /\ validator.ValidateRead v Example.claimsNoRead ∅ <> None
  /\ validator.ValidateStateAccess v Example.claimsNoRead "https://ex/other"
       (Scenario.agentJSON "mailto:a@x") "R9" = None.
Proof.
  intros v. split; [reflexivity|].
  pose proof (X11_read_false_does_not_close_state_access
                v Example.claimsNoRead eq_refl) as [Hread Hstate].
  split; [apply Hread|]. apply Hstate. reflexivity.
Defined.

(** ** The Authorization header *)

Lemma cutSpace_Some (s a b : string) :
  Go.cutSpace s = Some (a, b) -> s = a +:+ String " " b.
Proof.
  revert a. induction s as [|c s IH]; intros a; simpl; [discriminate|].
  destruct (Ascii.eqb c " ") eqn:Hc.
  - apply Ascii.eqb_eq in Hc. intros [= <- <-]. rewrite Hc. reflexivity.
  - destruct (Go.cutSpace s) as [[a' b']|]; [|discriminate].
    intros [= <- <-]. simpl. rewrite (IH a' eq_refl). reflexivity.
Qed.

(** [strings.SplitN(auth, " ", 2)] yields the two parts "Bearer" and
    [token] exactly for the header ["Bearer " + token]. *)
Lemma SplitN2_Bearer (auth token : string) :
  Go.SplitN2 auth = ["Bearer"; token] <-> auth = "Bearer " +:+ token.
Proof.
  split.
  - unfold Go.SplitN2.
    destruct (Go.cutSpace auth) as [[a b]|] eqn:Hcut; [|discriminate].
    intros [= -> ->]. apply cutSpace_Some in Hcut. exact Hcut.
  - intros ->. reflexivity.
Qed.

(** The two shapes of a header that is not "Bearer <token>". *)
Lemma SplitN2_shape (auth : string) :
  (exists token, Go.SplitN2 auth = ["Bearer"; token])
  \/ (exists single, Go.SplitN2 auth = [single])
  \/ (exists scheme rest, Go.SplitN2 auth = [scheme; rest] /\ scheme <> "Bearer").
Proof.
  unfold Go.SplitN2. destruct (Go.cutSpace auth) as [[a b]|].
  - destruct (String.eqb a "Bearer") eqn:Ha.
    + apply String.eqb_eq in Ha. subst a. left. exists b. reflexivity.
    + apply String.eqb_neq in Ha. right; right. exists a, b. auto.
  - right; left. exists auth. reflexivity.
Qed.

Section Bearer.

Variable ParseWithClaims : string -> jwt.Keyfunc -> jwt.Token + string.

(** X12. [JWTAuthMiddleware] calls the next handler with claims [c]
    exactly when the Authorization header is "Bearer " followed by a token
    string that the JWT library parses under the tenant's key function into
    a valid token whose claims are [c], and the tenant id in [c] is the id
    of the resolved tenant. *)
Theorem X12_jwt_middleware_passes_iff tenant r claims :
  middleware.JWTAuthMiddleware ParseWithClaims tenant r = middleware.Next claims
  <-> exists tokenString token,
        http.Get (http.Header r) "Authorization" = "Bearer " +:+ tokenString
        /\ ParseWithClaims tokenString (middleware.keyfunc tenant) = inl token
        /\ jwt.Valid token = true
        /\ jwt.TokenClaims token = Some claims
        /\ Claims.TenantID claims = TenantConfig.TenantID tenant.
Proof.
  unfold middleware.JWTAuthMiddleware.
  set (auth := http.Get (http.Header r) "Authorization").
  split.
  - destruct (String.eqb auth ""); [discriminate|].
    destruct (SplitN2_shape auth) as [(tok & Hs)|[(single & Hs)|(a & b & Hs & Hne)]];
      rewrite Hs; [|discriminate|].
    + simpl.
      destruct (ParseWithClaims tok _) as [token|err] eqn:Hparse; [|discriminate].
      destruct (jwt.Valid token) eqn:Hvalid; [|discriminate]. simpl.
      destruct (jwt.TokenClaims token) as [c|] eqn:Hclaims; [|discriminate].
      destruct (negb (String.eqb _ _)) eqn:Htenant; [discriminate|].
      apply negb_eqb_false in Htenant. intros [= <-].
      exists tok, token. apply SplitN2_Bearer in Hs. auto.
    + apply String.eqb_neq in Hne. rewrite Hne. discriminate.
  - intros (tok & token & Hauth & Hparse & Hvalid & Hclaims & Htenant).
    assert (Hne : String.eqb auth "" = false) by (rewrite Hauth; reflexivity).
    apply SplitN2_Bearer in Hauth. rewrite Hne, Hauth.
    cbn -[middleware.keyfunc]. rewrite Hparse, Hvalid, Hclaims.
    apply String.eqb_eq in Htenant. rewrite Htenant. reflexivity.
Qed.

End Bearer.

Lemma Bearer_inj (a b : string) : "Bearer " +:+ a = "Bearer " +:+ b -> a = b.
Proof. intros H. simpl in H. injection H as H. exact H. Qed.

(** X13. [LMSAuthMiddleware] lets a request through exactly when its
    Authorization header is "Bearer " followed by a key that the tenant's
    key map holds with the value true; the key is everything after the
    first space.  Every refusal is a 401. *)
Theorem X13_lms_middleware_passes_iff tenant r :
  (middleware.LMSAuthMiddleware tenant r = middleware.Passed
   <-> exists apiKey,
         http.Get (http.Header r) "Authorization" = "Bearer " +:+ apiKey
         /\ TenantConfig.LMSAPIKeys tenant !! apiKey = Some true)
  /\ (forall resp, middleware.LMSAuthMiddleware tenant r = middleware.Denied resp ->
                   http.StatusCode resp = 401).
Proof.
  unfold middleware.LMSAuthMiddleware.
  set (auth := http.Get (http.Header r) "Authorization").
  destruct (String.eqb auth "") eqn:Hempty.
  { apply String.eqb_eq in Hempty. split.
    - split; [discriminate|]. intros (k & Hk & _). rewrite Hk in Hempty.
      discriminate Hempty.
    - intros resp [= <-]. reflexivity. }
  destruct (SplitN2_shape auth) as [(key & Hs)|[(single & Hs)|(a & b & Hs & Hne)]];
    rewrite Hs.
  - cbn -[String.append]. apply SplitN2_Bearer in Hs.
    destruct (TenantConfig.LMSAPIKeys tenant !! key) as [[|]|] eqn:Hkey;
      cbn -[String.append].
    + split; [|discriminate]. split; [intros _; exists key; auto|reflexivity].
    + split; [|intros resp [= <-]; reflexivity].
      split; [discriminate|]. intros (k & Hk & Hv).
      assert (k = key) as -> by (apply Bearer_inj; congruence). congruence.
    + split; [|intros resp [= <-]; reflexivity].
      split; [discriminate|]. intros (k & Hk & Hv).
      assert (k = key) as -> by (apply Bearer_inj; congruence). congruence.
  - split; [|intros resp [= <-]; reflexivity].
    split; [discriminate|]. intros (k & Hk & _).
    apply SplitN2_Bearer in Hk. congruence.
  - pose proof Hne as Hneb. apply String.eqb_neq in Hneb. rewrite Hneb.
    cbn -[String.append].
    split; [|intros resp [= <-]; reflexivity].
    split; [discriminate|]. intros (k & Hk & _).
    apply SplitN2_Bearer in Hk. congruence.
Qed.

(** X14. [AdminAuthMiddleware] lets a request through exactly when its
    Authorization header is "Bearer " followed by anything, the empty
    string included: no token value is compared.  Every refusal is a
    401. *)
Theorem X14_admin_middleware_accepts_any_bearer r :
  (middleware.AdminAuthMiddleware r = middleware.Passed
   <-> exists token, http.Get (http.Header r) "Authorization" = "Bearer " +:+ token)
  /\ (forall resp, middleware.AdminAuthMiddleware r = middleware.Denied resp ->
                   http.StatusCode resp = 401).
Proof.
  unfold middleware.AdminAuthMiddleware.
  set (auth := http.Get (http.Header r) "Authorization").
  destruct (String.eqb auth "") eqn:Hempty.
  { apply String.eqb_eq in Hempty. split.
    - split; [discriminate|]. intros (k & Hk). rewrite Hk in Hempty.
      discriminate Hempty.
    - intros resp [= <-]. reflexivity. }
  destruct (SplitN2_shape auth) as [(key & Hs)|[(single & Hs)|(a & b & Hs & Hne)]];
    rewrite Hs.
  - cbn -[String.append]. apply SplitN2_Bearer in Hs. split; [|discriminate].
    split; [intros _; exists key; exact Hs | reflexivity].
  - split; [|intros resp [= <-]; reflexivity].
    split; [discriminate|]. intros (k & Hk).
    apply SplitN2_Bearer in Hk. congruence.
  - pose proof Hne as Hneb. apply String.eqb_neq in Hneb. rewrite Hneb.
    cbn -[String.append].
    split; [|intros resp [= <-]; reflexivity].
    split; [discriminate|]. intros (k & Hk).
    apply SplitN2_Bearer in Hk. congruence.
Qed.

(** ** The scope tables *)

Lemma ValidatePermission_None (scope : string) :
  models.ValidatePermission scope = None <-> scope ∈ models.validScopes.
Proof.
  unfold models.ValidatePermission, Go.Errorf.
  destruct (bool_decide (scope ∈ models.validScopes)) eqn:H.
  - apply bool_decide_eq_true in H. split; auto.
  - apply bool_decide_eq_false in H. split; [discriminate | contradiction].
Qed.

(** The table of [PermissionLevel] and the table of
    [ValidatePermission] list the same scopes: a scope has a positive level
    exactly when [ValidatePermission] accepts it and it is not "false".
    "false" and every scope outside the table have level 0, and no level
    exceeds 6. *)
Lemma PermissionLevel_agrees_with_valid_scopes (scope : string) :
  (0 < models.PermissionLevel scope
   <-> models.ValidatePermission scope = None /\ scope <> "false")
  /\ 0 <= models.PermissionLevel scope <= 6.
Proof.
  rewrite ValidatePermission_None.
  destruct (decide (scope = "false")) as [->|H0].
  { split; [|vm_compute; split; discriminate].
    split; [discriminate | intros [_ H]; contradiction]. }
  destruct (decide (scope = "actor-activity-registration-scoped")) as [->|H1].
  { split; [|vm_compute; split; discriminate].
    split; [intros _; split; [set_solver | discriminate] | reflexivity]. }
  destruct (decide (scope = "actor-course-registration-scoped")) as [->|H2].
  { split; [|vm_compute; split; discriminate].
    split; [intros _; split; [set_solver | discriminate] | reflexivity]. }
  destruct (decide (scope = "actor-activity-all-registrations")) as [->|H3].
  { split; [|vm_compute; split; discriminate].
    split; [intros _; split; [set_solver | discriminate] | reflexivity]. }
  destruct (decide (scope = "group-activity-registration-scoped")) as [->|H4].
  { split; [|vm_compute; split; discriminate].
    split; [intros _; split; [set_solver | discriminate] | reflexivity]. }
  destruct (decide (scope = "actor-cross-course-certification")) as [->|H5].
  { split; [|vm_compute; split; discriminate].
    split; [intros _; split; [set_solver | discriminate] | reflexivity]. }
  destruct (decide (scope = "course-peer-shared")) as [->|H6].
  { split; [|vm_compute; split; discriminate].
    split; [intros _; split; [set_solver | discriminate] | reflexivity]. }
  destruct (decide (scope = "course-aggregate-only")) as [->|H7].
  { split; [|vm_compute; split; discriminate].
    split; [intros _; split; [set_solver | discriminate] | reflexivity]. }
  assert (Hlevel : models.PermissionLevel scope = 0).
  { unfold models.PermissionLevel, models.levels. simpl.
    rewrite !lookup_insert_ne by congruence. rewrite lookup_empty. reflexivity. }
  rewrite Hlevel. split; [|lia].
  split; [lia|]. intros [Hin _]. unfold models.validScopes in Hin.
  set_unfold in Hin. intuition congruence.
Qed.

(** ** The forwarder *)

Section Forwarder.

Variable newRequestOK : string -> string -> bool.
Variable Do : http.UpstreamRequest -> option http.Response.

Local Abbreviation forwardToLRS := (handlers.forwardToLRS newRequestOK Do).
Local Abbreviation forwardWithBody := (handlers.forwardWithBody newRequestOK Do).

(** The key under which a Go header map holds the xAPI version. *)
Lemma CanonicalMIMEHeaderKey_version :
  http.CanonicalMIMEHeaderKey "X-Experience-API-Version"
  = "X-Experience-Api-Version".
Proof. reflexivity. Qed.

(** The request that [forwardToLRS] builds, when it builds one. *)
Lemma forwardToLRS_request tenant r body req :
  req ∈ handlers.Upstream (forwardToLRS tenant r body) ->
  let copied := delete "Authorization" (delete "Host" (http.Header r)) in
  req = http.mkUpstream (http.Method r)
          (TenantConfig.LRSEndpoint tenant +:+ handlers.sliceFrom 5 (http.Path r)
           +:+ (if Go.nonEmpty (http.RawQuery r) then "?" +:+ http.RawQuery r
                else ""))
          (if String.eqb (http.Get copied "X-Experience-Api-Version") "" then
             <["X-Experience-Api-Version" := (["1.0.3"])]> copied
           else copied)
          (TenantConfig.LRSUsername tenant, TenantConfig.LRSPassword tenant)
          body.
Proof.
  unfold handlers.forwardToLRS.
  destruct (negb _); simpl; [intros H; inversion H|].
  match goal with |- context [Do ?q] => destruct (Do q) end; simpl;
    intros H; apply list_elem_of_singleton in H; subst req; reflexivity.
Qed.

(** X15. Every request that [forwardToLRS] hands to the upstream client
    keeps the inbound method and carries the body it was given; its URL is
    the tenant's LRS endpoint followed by the inbound path without its
    "/xapi" prefix and, when the raw query is not empty, by "?" and the raw
    query unchanged; it authenticates with the tenant's LRS user and
    password; and neither the inbound Authorization header nor the inbound
    Host header is among the headers copied to it. *)
Theorem X15_forward_substitutes_credentials tenant r body req :
  req ∈ handlers.Upstream (forwardToLRS tenant r body) ->
  http.ReqMethod req = http.Method r
  /\ http.ReqBody req = body
  /\ (forall rest, http.Path r = "/xapi" +:+ rest ->
        http.URL req
        = TenantConfig.LRSEndpoint tenant +:+ rest
          +:+ (if String.eqb (http.RawQuery r) "" then ""
               else "?" +:+ http.RawQuery r))
  /\ http.BasicAuth req
     = (TenantConfig.LRSUsername tenant, TenantConfig.LRSPassword tenant)
  /\ http.ReqHeader req !! "Authorization" = None
  /\ http.ReqHeader req !! "Host" = None.
Proof.
  intros Hreq. apply forwardToLRS_request in Hreq. simpl in Hreq. subst req.
  cbn [http.ReqMethod http.ReqBody http.URL http.BasicAuth http.ReqHeader].
  split; [reflexivity|]. split; [reflexivity|]. split.
  { intros rest ->. unfold Go.nonEmpty.
    destruct (String.eqb (http.RawQuery r) ""); reflexivity. }
  split; [reflexivity|].
  destruct (String.eqb _ ""); split;
    rewrite ?lookup_insert_ne by discriminate;
    rewrite ?lookup_delete_eq, ?lookup_delete_ne by discriminate;
    rewrite ?lookup_delete_eq; reflexivity.
Qed.

(** X16. Every request that [forwardToLRS] hands to the upstream client
    has a non-empty xAPI version header.  Go files the header
    X-Experience-API-Version under its canonical key,
    X-Experience-Api-Version.  When the first inbound value under that key
    is not empty, the inbound header is forwarded with all its values;
    otherwise the header is set to the single value "1.0.3".  Every other
    inbound header, Authorization and Host apart, is copied with all its
    values. *)
Theorem X16_forward_ensures_version_header tenant r body req :
  req ∈ handlers.Upstream (forwardToLRS tenant r body) ->
  let key := "X-Experience-Api-Version" in
  let inbound := http.Get (http.Header r) key in
  http.CanonicalMIMEHeaderKey "X-Experience-API-Version" = key
  /\ http.HeaderGet (http.ReqHeader req) "X-Experience-API-Version"
     = (if String.eqb inbound "" then "1.0.3" else inbound)
  /\ http.HeaderGet (http.ReqHeader req) "X-Experience-API-Version" <> ""
  /\ http.ReqHeader req !! key
     = (if String.eqb inbound "" then Some ["1.0.3"] else http.Header r !! key)
  /\ (forall other : string,
        other <> "Authorization" -> other <> "Host" -> other <> key ->
        http.ReqHeader req !! other = http.Header r !! other).
Proof.
  intros Hreq key inbound. apply forwardToLRS_request in Hreq. simpl in Hreq.
  subst req. cbn [http.ReqHeader]. unfold http.HeaderGet.
  rewrite CanonicalMIMEHeaderKey_version. fold key.
  assert (Hcopied :
    http.Get (delete "Authorization" (delete "Host" (http.Header r))) key
    = inbound).
  { unfold inbound, http.Get, key.
    rewrite !lookup_delete_ne by discriminate. reflexivity. }
  rewrite Hcopied. split; [reflexivity|].
  destruct (String.eqb inbound "") eqn:Hin.
  - split; [|split; [|split]].
    + unfold http.Get. rewrite lookup_insert_eq. reflexivity.
    + unfold http.Get. rewrite lookup_insert_eq. discriminate.
    + apply lookup_insert_eq.
    + intros other H1 H2 H3.
      rewrite lookup_insert_ne, !lookup_delete_ne by congruence. reflexivity.
  - apply String.eqb_neq in Hin. rewrite Hcopied.
    split; [reflexivity|]. split; [exact Hin|]. split.
    + unfold key. rewrite !lookup_delete_ne by discriminate. reflexivity.
    + intros other H1 H2 H3. rewrite !lookup_delete_ne by congruence.
      reflexivity.
Qed.

(** X17. [forwardToLRS] calls the upstream client exactly when
    [http.NewRequest] accepts the inbound method and the LRS URL.  When
    [http.NewRequest] fails, nothing is sent and the answer is 500 "Failed
    to forward request".  When it succeeds, exactly one request is sent, to
    that URL with the inbound method; the answer is then 502 "LRS request
    failed" when the client fails, and otherwise the response of the LRS,
    status, headers and body unchanged. *)
Theorem X17_forward_relays_the_upstream_response tenant r body :
  let x := forwardToLRS tenant r body in
  let lrsURL :=
    TenantConfig.LRSEndpoint tenant +:+ handlers.sliceFrom 5 (http.Path r)
    +:+ (if Go.nonEmpty (http.RawQuery r) then "?" +:+ http.RawQuery r
         else "") in
  (newRequestOK (http.Method r) lrsURL = false ->
   handlers.Upstream x = []
   /\ handlers.Reply x = http.Error "Failed to forward request" 500)
  /\ (newRequestOK (http.Method r) lrsURL = true ->
      exists req,
        handlers.Upstream x = [req]
        /\ http.ReqMethod req = http.Method r
        /\ http.URL req = lrsURL
        /\ http.ReqBody req = body
        /\ (forall resp, Do req = Some resp -> handlers.Reply x = resp)
        /\ (Do req = None ->
            handlers.Reply x = http.Error "LRS request failed" 502)).
Proof.
  intros x lrsURL. subst x. unfold handlers.forwardToLRS. fold lrsURL.
  split; intros Hok; rewrite Hok; cbn [negb].
  - split; reflexivity.
  - match goal with |- context [Do ?q] => exists q; destruct (Do q) eqn:Hdo end;
      cbn [handlers.Upstream handlers.Reply http.ReqMethod http.URL
           http.ReqBody];
      (split; [reflexivity|]); (split; [reflexivity|]);
      (split; [reflexivity|]); (split; [reflexivity|]); split.
    + intros resp [= <-]. reflexivity.
    + discriminate.
    + discriminate.
    + reflexivity.
Qed.


End Forwarder.

(** ** The handlers behind the verifier *)

(** The map that [proxyStatementsRead] builds gives, for every key, what
    [r.URL.Query().Get(key)] gives. *)
Lemma index_first_values (query : gmap string (list string)) (key : string) :
  Go.index (omap head query) key = http.Get query key.
Proof.
  unfold Go.index, http.Get. rewrite lookup_omap.
  destruct (query !! key) as [[|value rest]|]; reflexivity.
Qed.

(** [ValidateRead] looks at the keys agent, activity and registration
    only. *)
Lemma ValidateRead_three_keys v claims (q1 q2 : gmap string string) :
  Go.index q1 "agent" = Go.index q2 "agent" ->
  Go.index q1 "activity" = Go.index q2 "activity" ->
  Go.index q1 "registration" = Go.index q2 "registration" ->
  validator.ValidateRead v claims q1 = validator.ValidateRead v claims q2.
Proof.
  intros Hagent Hact Hreg.
  unfold validator.ValidateRead,
    validator.validateActorActivityRegistrationRead,
    validator.validateActorCourseRegistrationRead,
    validator.validateActorActivityAllRegistrationsRead,
    validator.validateGroupActivityRegistrationRead.
  rewrite Hagent, Hact, Hreg. reflexivity.
Qed.

Section Gated.

Variable fmtActor : Actor.t -> string.
Variable fmtContext : option Context.t -> string.
Variable unmarshalStatements : string -> option (list Statement.t).
Variable unmarshalStatement : string -> option Statement.t.
Variable newRequestOK : string -> string -> bool.
Variable Do : http.UpstreamRequest -> option http.Response.
Variable ParseWithClaims : string -> jwt.Keyfunc -> jwt.Token + string.

Local Abbreviation ValidateWrite :=
  (validator.ValidateWrite fmtActor fmtContext).
Local Abbreviation parseStatements :=
  (handlers.parseStatements unmarshalStatements unmarshalStatement).
Local Abbreviation ProxyStatements :=
  (handlers.ProxyStatements fmtActor fmtContext
     unmarshalStatements unmarshalStatement newRequestOK Do).
Local Abbreviation proxyStatementsRead :=
  (handlers.proxyStatementsRead newRequestOK Do).
Local Abbreviation ProxyState := (handlers.ProxyState newRequestOK Do).
Local Abbreviation JWTAuthMiddleware :=
  (middleware.JWTAuthMiddleware ParseWithClaims).

(** X19. [ProxyStatements] hands a request to the upstream client only
    after the evaluator has admitted it under the tenant's policy: for POST
    and PUT the body was read and parsed and [ValidateWrite] admitted every
    statement, and the inbound body is forwarded; for GET [ValidateRead]
    admitted the first values of the query parameters, and no body is
    forwarded.  No other method reaches the upstream. *)
Theorem X19_statements_reach_upstream_only_when_admitted tenant claims r req :
  req ∈ handlers.Upstream (ProxyStatements tenant claims r) ->
  let v := validator.NewPermissionValidator
             (TenantConfig.PermissionPolicy tenant) in
  ((http.Method r = "POST" \/ http.Method r = "PUT")
   /\ exists body statements,
        http.Body r = Some body
        /\ parseStatements body = Some statements
        /\ Forall (fun stmt => ValidateWrite v claims stmt = None) statements
        /\ http.ReqBody req = Some body)
  \/ (http.Method r = "GET"
      /\ validator.ValidateRead v claims (omap head (http.Query r)) = None
      /\ http.ReqBody req = None).
Proof.
  intros Hreq v. unfold handlers.ProxyStatements in Hreq. fold v in Hreq.
  destruct (String.eqb (http.Method r) "POST" || String.eqb (http.Method r) "PUT")
    eqn:Hwrite.
  - left. split.
    { apply orb_true_iff in Hwrite as [H|H]; apply String.eqb_eq in H; auto. }
    unfold handlers.proxyStatementsWrite in Hreq.
    destruct (http.Body r) as [body|]; [|inversion Hreq].
    destruct (parseStatements body) as [statements|] eqn:Hparse;
      [|inversion Hreq].
    destruct (handlers.firstDenied _ _ v claims 0 statements) as [[i err]|] eqn:Hfd;
      [inversion Hreq|].
    exists body, statements. split; [reflexivity|]. split; [exact Hparse|]. split.
    + apply (proj1 (firstDenied_None fmtActor fmtContext v claims 0 statements)).
      exact Hfd.
    + apply forwardToLRS_request in Hreq. subst req. reflexivity.
  - destruct (String.eqb (http.Method r) "GET") eqn:Hget; [|inversion Hreq].
    right. apply String.eqb_eq in Hget. split; [exact Hget|].
    unfold handlers.proxyStatementsRead in Hreq.
    destruct (validator.ValidateRead v claims _) as [err|]; [inversion Hreq|].
    split; [reflexivity|].
    apply forwardToLRS_request in Hreq. subst req. reflexivity.
Qed.

(** X20. The decision of [proxyStatementsRead] depends on the first value
    of the query parameters agent, activity and registration and on nothing
    else of the query: further values of a repeated parameter and every
    other parameter leave the result of [ValidateRead] unchanged.  A denied
    read is answered 403 with the error text, and nothing is forwarded. *)
Theorem X20_read_decision_sees_three_first_values
    tenant claims v (r r' : http.Request) :
  http.Get (http.Query r) "agent" = http.Get (http.Query r') "agent" ->
  http.Get (http.Query r) "activity" = http.Get (http.Query r') "activity" ->
  http.Get (http.Query r) "registration"
    = http.Get (http.Query r') "registration" ->
  validator.ValidateRead v claims (omap head (http.Query r))
    = validator.ValidateRead v claims (omap head (http.Query r'))
  /\ (forall err,
        validator.ValidateRead v claims (omap head (http.Query r)) = Some err ->
        proxyStatementsRead tenant claims v r'
        = handlers.answer (http.Error err http.StatusForbidden)).
Proof.
  intros Hagent Hact Hreg.
  assert (Hsame : validator.ValidateRead v claims (omap head (http.Query r))
                  = validator.ValidateRead v claims (omap head (http.Query r'))).
  { apply ValidateRead_three_keys; rewrite !index_first_values; assumption. }
  split; [exact Hsame|].
  intros err Herr. unfold handlers.proxyStatementsRead.
  rewrite <- Hsame, Herr. reflexivity.
Qed.

(** X21. [ProxyState] hands a request to the upstream client, for
    whatever method, only when [ValidateStateAccess] admits the first
    values of the query parameters activityId, agent and registration; a
    denial is answered 403 with the error text. *)
Theorem X21_state_reaches_upstream_only_when_admitted tenant claims r :
  let v := validator.NewPermissionValidator
             (TenantConfig.PermissionPolicy tenant) in
  let decision :=
    validator.ValidateStateAccess v claims
      (http.Get (http.Query r) "activityId")
      (http.Get (http.Query r) "agent")
      (http.Get (http.Query r) "registration") in
  (forall req, req ∈ handlers.Upstream (ProxyState tenant claims r) ->
               decision = None)
  /\ (forall err, decision = Some err ->
                  ProxyState tenant claims r
                  = handlers.answer (http.Error err http.StatusForbidden)).
Proof.
  intros v decision. unfold handlers.ProxyState. fold v. fold decision.
  destruct decision as [err|].
  - split; [intros req Hreq; inversion Hreq|].
    intros err' [= <-]. reflexivity.
  - split; [reflexivity | discriminate].
Qed.

(** X22. No route of the [/xapi] subrouter hands a request to the
    upstream client unless [JWTAuthMiddleware] has passed the request on
    with verified claims: statements, activity state, activity profile,
    agent profile and about alike. *)
Theorem X22_xapi_routes_require_verified_token tenant r req :
  let verified :=
    exists claims, JWTAuthMiddleware tenant r = middleware.Next claims in
  (req ∈ handlers.Upstream
           (handlers.xapiStatements fmtActor fmtContext unmarshalStatements
              unmarshalStatement newRequestOK Do ParseWithClaims tenant r) ->
   verified)
  /\ (req ∈ handlers.Upstream
              (handlers.xapiActivitiesState newRequestOK Do ParseWithClaims
                 tenant r) ->
      verified)
  /\ (req ∈ handlers.Upstream
              (handlers.xapiActivitiesProfile newRequestOK Do ParseWithClaims
                 tenant r) ->
      verified)
  /\ (req ∈ handlers.Upstream
              (handlers.xapiAgentsProfile newRequestOK Do ParseWithClaims
                 tenant r) ->
      verified)
  /\ (req ∈ handlers.Upstream
              (handlers.xapiAbout newRequestOK Do ParseWithClaims tenant r) ->
      verified).
Proof.
  intros verified. subst verified.
  unfold handlers.xapiStatements, handlers.xapiActivitiesState,
    handlers.xapiActivitiesProfile, handlers.xapiAgentsProfile,
    handlers.xapiAbout, handlers.withJWT.
  destruct (JWTAuthMiddleware tenant r) as [resp|claims].
  - repeat split; intros Hreq; inversion Hreq.
  - repeat split; intros _; exists claims; reflexivity.
Qed.

(** X23. Claims that [IssueToken] builds for one tenant are passed on by
    [JWTAuthMiddleware] exactly under a resolved tenant with the same
    tenant id: when the JWT library accepts the token under another
    tenant's key, for instance because both tenants use one secret, the
    request is still answered 401 "Invalid token" unless the ids agree. *)
Theorem X23_issued_claims_are_bound_to_the_tenant
    issuer resolved now now' tokenRequest r tokenString token :
  let claims := handlers.newClaims issuer now now' tokenRequest in
  http.Get (http.Header r) "Authorization" = "Bearer " +:+ tokenString ->
  ParseWithClaims tokenString (middleware.keyfunc resolved) = inl token ->
  jwt.Valid token = true ->
  jwt.TokenClaims token = Some claims ->
  (TenantConfig.TenantID resolved = TenantConfig.TenantID issuer ->
   JWTAuthMiddleware resolved r = middleware.Next claims)
  /\ (TenantConfig.TenantID resolved <> TenantConfig.TenantID issuer ->
      JWTAuthMiddleware resolved r
      = middleware.Rejected (http.Error "Invalid token" 401)).
Proof.
  intros claims Hauth Hparse Hvalid Hclaims.
  unfold middleware.JWTAuthMiddleware.
  assert (Hne : String.eqb (http.Get (http.Header r) "Authorization") "" = false)
    by (rewrite Hauth; reflexivity).
  apply SplitN2_Bearer in Hauth. rewrite Hne, Hauth.
  cbn -[middleware.keyfunc]. rewrite Hparse, Hvalid, Hclaims.
  change (Claims.TenantID claims) with (TenantConfig.TenantID issuer).
  split; intros Hid.
  - rewrite Hid, String.eqb_refl. reflexivity.
  - assert (Hneq : TenantConfig.TenantID issuer <> TenantConfig.TenantID resolved)
      by congruence.
    apply String.eqb_neq in Hneq. rewrite Hneq. reflexivity.
Qed.

End Gated.

(** ** Configuration *)

Lemma orInt_nonzero (v d : Z) : d <> 0 -> config.orInt v d <> 0.
Proof.
  intros Hd. unfold config.orInt. destruct (Z.eqb_spec v 0); assumption.
Qed.

Lemma orInt_keeps (v d : Z) : v <> 0 -> config.orInt v d = v.
Proof.
  intros Hv. unfold config.orInt. destruct (Z.eqb_spec v 0); congruence.
Qed.

Lemma orString_nonempty (v d : string) : d <> "" -> config.orString v d <> "".
Proof.
  intros Hd. unfold config.orString. destruct (String.eqb_spec v ""); assumption.
Qed.

Lemma orString_keeps (v d : string) : v <> "" -> config.orString v d = v.
Proof.
  intros Hv. unfold config.orString. destruct (String.eqb_spec v ""); congruence.
Qed.

Section Loading.

Variable ReadFile : string -> string + string.
Variable yamlUnmarshal : string -> Config.t + string.
Variable ExpandEnv : string -> string.

Local Abbreviation Load := (config.Load ReadFile yamlUnmarshal ExpandEnv).

(** X24. A configuration that [Load] returns never has a zero server
    port, a zero token lifetime or an empty permission policy, nor a zero
    LRS timeout or retry count, database port, Redis port or cache
    lifetime, nor an empty SSL mode.  It comes from a file that was read and
    parsed; a token lifetime, server port or permission policy that the
    file sets is kept, also a negative lifetime; and the JWT secret and the
    LRS password are the file's values after environment expansion. *)
Theorem X24_load_fills_defaults filename cfg :
  Load filename = inl cfg ->
  (ServerConfig.Port (Config.Server cfg) <> 0
   /\ AuthConfig.JWTTTLSeconds (Config.Auth cfg) <> 0
   /\ AuthConfig.PermissionPolicy (Config.Auth cfg) <> ""
   /\ LRSConfig.ConnectionTimeout (Config.LRS cfg) <> 0
   /\ LRSConfig.MaxRetries (Config.LRS cfg) <> 0
   /\ DatabaseConfig.Port (Config.Database cfg) <> 0
   /\ DatabaseConfig.SSLMode (Config.Database cfg) <> ""
   /\ RedisConfig.Port (Config.Redis cfg) <> 0
   /\ RedisConfig.CacheTTL (Config.Redis cfg) <> 0)
  /\ exists data parsed,
       ReadFile filename = inl data
       /\ yamlUnmarshal data = inl parsed
       /\ (AuthConfig.JWTTTLSeconds (Config.Auth parsed) <> 0 ->
           AuthConfig.JWTTTLSeconds (Config.Auth cfg)
           = AuthConfig.JWTTTLSeconds (Config.Auth parsed))
       /\ (ServerConfig.Port (Config.Server parsed) <> 0 ->
           ServerConfig.Port (Config.Server cfg)
           = ServerConfig.Port (Config.Server parsed))
       /\ (AuthConfig.PermissionPolicy (Config.Auth parsed) <> "" ->
           AuthConfig.PermissionPolicy (Config.Auth cfg)
           = AuthConfig.PermissionPolicy (Config.Auth parsed))
       /\ AuthConfig.JWTSecret (Config.Auth cfg)
          = ExpandEnv (AuthConfig.JWTSecret (Config.Auth parsed))
       /\ LRSConfig.Password (Config.LRS cfg)
          = ExpandEnv (LRSConfig.Password (Config.LRS parsed))
       /\ AuthConfig.LMSAPIKeys (Config.Auth cfg)
          = AuthConfig.LMSAPIKeys (Config.Auth parsed).
Proof.
  unfold config.Load.
  destruct (ReadFile filename) as [data|err] eqn:Hread; [|discriminate].
  destruct (yamlUnmarshal data) as [parsed|err] eqn:Hparse; [|discriminate].
  intros [= <-]. simpl. split.
  - repeat split;
      first [apply orInt_nonzero; discriminate
            |apply orString_nonempty; discriminate].
  - exists data, parsed. split; [reflexivity|]. split; [exact Hparse|].
    split; [apply orInt_keeps|]. split; [apply orInt_keeps|].
    split; [apply orString_keeps|]. repeat split; reflexivity.
Qed.

End Loading.

(** X25. [Validate] accepts a configuration exactly when its mode is not
    "single-tenant", or its LRS endpoint and its JWT secret are not empty
    and it lists at least one LMS key.  A configuration with any other
    mode, the empty mode included, is accepted whatever it lacks. *)
Theorem X25_validate_checks_single_tenant_mode_only (c : Config.t) :
  config.Validate c = None
  <-> Config.Mode c <> "single-tenant"
      \/ (LRSConfig.Endpoint (Config.LRS c) <> ""
          /\ AuthConfig.JWTSecret (Config.Auth c) <> ""
          /\ AuthConfig.LMSAPIKeys (Config.Auth c) <> []).
Proof.
  unfold config.Validate, Go.Errorf.
  destruct (String.eqb_spec (Config.Mode c) "single-tenant") as [Hmode|Hmode];
    [|split; auto].
  destruct (String.eqb_spec (LRSConfig.Endpoint (Config.LRS c)) "") as [He|He].
  { split; [discriminate|]. intros [H|(H & _)]; contradiction. }
  destruct (String.eqb_spec (AuthConfig.JWTSecret (Config.Auth c)) "") as [Hs|Hs].
  { split; [discriminate|]. intros [H|(_ & H & _)]; contradiction. }
  destruct (AuthConfig.LMSAPIKeys (Config.Auth c)) as [|key keys]; simpl.
  - split; [discriminate|]. intros [H|(_ & _ & H)]; contradiction.
  - split; [intros _|reflexivity]. right.
    split; [exact He|]. split; [exact Hs | discriminate].
Qed.

(** ** The tenant stores *)

Lemma enableKeys_from (keys : list string) (start : gmap string bool) (key : string) :
  fold_left (fun apiKeys k => <[k := true]> apiKeys) keys start !! key
  = if decide (key ∈ keys) then Some true else start !! key.
Proof.
  revert start. induction keys as [|k keys IH]; intros start; simpl.
  - destruct (decide (key ∈ [])) as [H|_]; [inversion H | reflexivity].
  - rewrite IH. destruct (decide (key ∈ keys)) as [Hin|Hnot].
    + rewrite decide_True by (right; exact Hin). reflexivity.
    + destruct (decide (key = k)) as [->|Hne].
      * rewrite decide_True by left. apply lookup_insert_eq.
      * rewrite decide_False by (rewrite elem_of_cons; tauto).
        apply lookup_insert_ne. congruence.
Qed.

(** The key map built from a list of keys holds exactly these keys, each
    with the value true. *)
Lemma enableKeys_lookup (keys : list string) (key : string) :
  store.enableKeys keys !! key
  = if decide (key ∈ keys) then Some true else None.
Proof.
  unfold store.enableKeys. rewrite enableKeys_from, lookup_empty. reflexivity.
Qed.

(** X26. [NewSingleTenantStore] fails exactly when [Validate] refuses the
    configuration, with its error.  The store it builds serves one tenant
    with the id "default" to every host and every tenant id, so that
    [TenantMiddleware] never answers 404; the tenant's key map holds
    exactly the configured LMS keys, each enabled, and its secret, lifetime
    and policy are the configured ones. *)
Theorem X26_single_tenant_store_serves_every_host (cfg : Config.t) :
  match store.NewSingleTenantStore cfg with
  | inr err => config.Validate cfg = Some err
  | inl s =>
      config.Validate cfg = None
      /\ (forall host,
            middleware.TenantMiddleware s host
            = (s, middleware.Found (store.config s)))
      /\ (forall tenantID, store.GetByID s tenantID = (s, inl (store.config s)))
      /\ TenantConfig.TenantID (store.config s) = "default"
      /\ (forall key,
            TenantConfig.LMSAPIKeys (store.config s) !! key = Some true
            <-> key ∈ AuthConfig.LMSAPIKeys (Config.Auth cfg))
      /\ (forall key,
            TenantConfig.LMSAPIKeys (store.config s) !! key <> Some false)
      /\ TenantConfig.JWTSecret (store.config s)
         = AuthConfig.JWTSecret (Config.Auth cfg)
      /\ TenantConfig.JWTTTLSeconds (store.config s)
         = AuthConfig.JWTTTLSeconds (Config.Auth cfg)
      /\ TenantConfig.PermissionPolicy (store.config s)
         = AuthConfig.PermissionPolicy (Config.Auth cfg)
  end.
Proof.
  unfold store.NewSingleTenantStore.
  destruct (config.Validate cfg) as [err|]; [reflexivity|].
  split; [reflexivity|]. split; [reflexivity|]. split; [reflexivity|].
  split; [reflexivity|]. cbn [store.config TenantConfig.LMSAPIKeys].
  split; [|split; [|repeat split; reflexivity]].
  - intros key. rewrite enableKeys_lookup.
    destruct (decide (key ∈ _)) as [Hin|Hnot].
    + split; [intros _; exact Hin | reflexivity].
    + split; [discriminate | contradiction].
  - intros key. rewrite enableKeys_lookup.
    destruct (decide (key ∈ _)); discriminate.
Qed.

(** X27. A lookup by host in the database store never changes the
    database handle nor the cache entry of another host.  When it fails,
    the store is unchanged.  When it succeeds, the tenant is cached under
    the host, and a lookup of the same host is from then on answered with
    this tenant from the cache, whatever the database has come to hold. *)
Theorem X27_database_lookup_caches_by_host s host s' result :
  store.databaseGetByHost s host = (s', result) ->
  store.db s' = store.db s
  /\ (forall other, other <> host ->
                    store.cache s' !! other = store.cache s !! other)
  /\ match result with
     | inr _ => s' = s
     | inl tenant =>
         store.cache s' !! host = Some tenant
         /\ forall db',
              store.databaseGetByHost (store.mkDatabase db' (store.cache s')) host
              = (store.mkDatabase db' (store.cache s'), inl tenant)
     end.
Proof.
  unfold store.databaseGetByHost.
  destruct (store.cache s !! host) as [cached|] eqn:Hhit.
  { intros [= <- <-]. split; [reflexivity|]. split; [reflexivity|].
    split; [exact Hhit|]. intros db'. simpl. rewrite Hhit. reflexivity. }
  destruct (store.selectTenantID (store.db s) host) as [tenantID| |err].
  - destruct (store.loadTenantConfig s tenantID) as [config|err].
    + intros [= <- <-]. simpl. split; [reflexivity|]. split.
      * intros other Hne. apply lookup_insert_ne. congruence.
      * split; [apply lookup_insert_eq|]. intros db'.
        rewrite lookup_insert_eq. reflexivity.
    + intros [= <- <-]. repeat split; reflexivity.
  - intros [= <- <-]. repeat split; reflexivity.
  - intros [= <- <-]. repeat split; reflexivity.
Qed.

(** X28. [DeleteTenant] fails exactly when the update fails or affects no
    row.  When the update fails it returns the error of the update; when
    the update affects no row it returns "tenant not found: " followed by
    the tenant id; in both cases the store is left unchanged.  When the
    update affects a row it succeeds: the database handle is kept, the
    cache holds no tenant with the deleted id any more, and every cached
    tenant with another id is still cached under its host. *)
Theorem X28_delete_tenant_invalidates_its_cache_entries s tenantID s' err :
  store.DeleteTenant s tenantID = (s', err) ->
  (forall e, store.updateDeleted (store.db s) tenantID = inr e ->
             err = Some e)
  /\ (store.updateDeleted (store.db s) tenantID = inl 0 ->
      err = Some ("tenant not found: " +:+ tenantID))
  /\ (forall rows, store.updateDeleted (store.db s) tenantID = inl rows ->
                   rows <> 0 -> err = None)
  /\ match err with
     | Some _ => s' = s
     | None =>
         store.db s' = store.db s
         /\ (forall host tenant,
               store.cache s' !! host = Some tenant
               <-> store.cache s !! host = Some tenant
                   /\ TenantConfig.TenantID tenant <> tenantID)
     end.
Proof.
  unfold store.DeleteTenant, Go.Errorf.
  destruct (store.updateDeleted (store.db s) tenantID) as [rows|e].
  - destruct (Z.eqb_spec rows 0) as [->|Hrows].
    + intros [= <- <-]. split; [discriminate|]. split; [reflexivity|].
      split; [intros rows [= <-] Hne; contradiction|reflexivity].
    + intros [= <- <-]. split; [discriminate|].
      split; [intros [= ->]; contradiction|]. split; [reflexivity|].
      split; [reflexivity|]. intros host tenant. simpl.
      rewrite map_lookup_filter_Some. reflexivity.
  - intros [= <- <-]. split; [intros e' [= <-]; reflexivity|].
    split; [discriminate|]. split; [discriminate|reflexivity].
Qed.

(** [scanAll] succeeds exactly when no row fails to scan, and then yields
    the rows in order. *)
Lemma scanAll_inl {A} (rows : list (A + string)) (values : list A) :
  store.scanAll rows = inl values <-> rows = inl <$> values.
Proof.
  revert values. induction rows as [|row rows IH]; intros values; simpl.
  - split; [intros [= <-]; reflexivity|]. destruct values; [reflexivity|discriminate].
  - destruct row as [a|err].
    + destruct (store.scanAll rows) as [scanned|err] eqn:Hrest.
      * split.
        -- intros [= <-]. simpl. f_equal. apply IH. reflexivity.
        -- destruct values as [|b values]; [discriminate|]. simpl.
           intros [= <- Hrows]. f_equal. f_equal.
           apply IH in Hrows. congruence.
      * split; [discriminate|].
        destruct values as [|b values]; [discriminate|]. simpl.
        intros [= <- Hrows]. apply IH in Hrows. discriminate.
    + split; [discriminate|]. destruct values; discriminate.
Qed.

(** X29. When [loadTenantConfig] succeeds, the tenant it returns has the
    requested id, its hosts are the host rows in the order of the query,
    none of which failed to scan, and its key map holds exactly the keys of
    the key rows, each enabled.  The cache takes no part in the load. *)
Theorem X29_loaded_tenant_reflects_the_rows s tenantID tenant :
  store.loadTenantConfig s tenantID = inl tenant ->
  TenantConfig.TenantID tenant = tenantID
  /\ store.selectHosts (store.db s) tenantID
     = inl (inl <$> TenantConfig.Hosts tenant)
  /\ (exists keys,
        store.selectAPIKeys (store.db s) tenantID = inl (inl <$> keys)
        /\ forall key,
             TenantConfig.LMSAPIKeys tenant !! key
             = if decide (key ∈ keys) then Some true else None)
  /\ forall cache',
       store.loadTenantConfig (store.mkDatabase (store.db s) cache') tenantID
       = inl tenant.
Proof.
  intros Hload.
  assert (Hcache : forall cache',
    store.loadTenantConfig (store.mkDatabase (store.db s) cache') tenantID
    = store.loadTenantConfig s tenantID) by reflexivity.
  split; [|split; [|split; [|intros cache'; rewrite Hcache; exact Hload]]];
    unfold store.loadTenantConfig in Hload;
    destruct (store.scanRow (store.selectLRSConfig _ _)) as [[[endpoint user] pass]|];
    try discriminate;
    destruct (store.scanRow (store.selectAuthConfig _ _)) as [[[secret ttl] policy]|];
    try discriminate;
    destruct (store.selectHosts _ _) as [hostRows|]; try discriminate;
    destruct (store.scanAll hostRows) as [hosts|] eqn:Hhosts; try discriminate;
    destruct (store.selectAPIKeys _ _) as [keyRows|]; try discriminate;
    destruct (store.scanAll keyRows) as [keys|] eqn:Hkeys; try discriminate;
    injection Hload as <-; simpl.
  - reflexivity.
  - apply scanAll_inl in Hhosts. rewrite Hhosts. reflexivity.
  - exists keys. apply scanAll_inl in Hkeys. rewrite Hkeys.
    split; [reflexivity|]. intros key. apply enableKeys_lookup.
Qed.

(** ** The token route *)

Lemma LMSAuthMiddleware_denied_401 tenant r resp :
  middleware.LMSAuthMiddleware tenant r = middleware.Denied resp ->
  http.StatusCode resp = 401.
Proof.
  unfold middleware.LMSAuthMiddleware.
  destruct (String.eqb _ ""); [intros [= <-]; reflexivity|].
  destruct (Go.SplitN2 _) as [|scheme [|key [|extra parts]]];
    try (intros [= <-]; reflexivity).
  destruct (negb (String.eqb scheme "Bearer")); [intros [= <-]; reflexivity|].
  destruct (negb _); [intros [= <-]; reflexivity | discriminate].
Qed.

Section TokenRoute.

Variable decodeTokenRequest : string -> option TokenRequest.t.
Variable marshalTokenResponse : TokenResponse.t -> string.
Variable SignedString : string -> Claims.t -> string + string.
Context {S : Type} `{store.TenantStore S}.

Local Abbreviation IssueToken :=
  (handlers.IssueToken decodeTokenRequest marshalTokenResponse SignedString).
Local Abbreviation authToken :=
  (handlers.authToken decodeTokenRequest marshalTokenResponse SignedString).

(** X30. The route [/auth/token] never contacts the upstream, and it
    answers 200 only when [TenantMiddleware] resolved a tenant for the
    host, [LMSAuthMiddleware] accepted the request's key for this tenant,
    and [IssueToken] answered 200 for this tenant. *)
Theorem X30_token_route_mints_behind_both_gates
    (tenantStore : S) host now now' r tenantStore' x :
  authToken tenantStore host now now' r = (tenantStore', x) ->
  handlers.Upstream x = []
  /\ (http.StatusCode (handlers.Reply x) = 200 ->
      exists tenant,
        middleware.TenantMiddleware tenantStore host
        = (tenantStore', middleware.Found tenant)
        /\ middleware.LMSAuthMiddleware tenant r = middleware.Passed
        /\ x = IssueToken tenant now now' r).
Proof.
  unfold handlers.authToken.
  destruct (middleware.TenantMiddleware tenantStore host) as [s' [resp|tenant]]
    eqn:Hresolve.
  - unfold middleware.TenantMiddleware in Hresolve.
    destruct (store.GetByHost tenantStore host) as [s'' [tenant|err]];
      [discriminate|]. injection Hresolve as <- <-.
    intros [= <- <-]. split; [reflexivity | discriminate].
  - destruct (middleware.LMSAuthMiddleware tenant r) as [resp|] eqn:Hlms.
    + apply LMSAuthMiddleware_denied_401 in Hlms.
      intros [= <- <-]. split; [reflexivity|]. simpl. rewrite Hlms. discriminate.
    + intros [= <- <-]. split.
      * apply (IssueToken_cases decodeTokenRequest marshalTokenResponse
                 SignedString tenant now now' r).
      * intros _. exists tenant. auto.
Qed.

End TokenRoute.

(** ** The further theorems at concrete values *)

(** A PUT of a state document is forwarded to the tenant's LRS with the
    tenant's credentials and without the bearer token. *)
Lemma X15_forward_substitutes_credentials_witness :
  let x := handlers.forwardToLRS Scenario.anyRequestOK Scenario.lrsOK
             (Scenario.tenant "strict") Example.putState (Some "{}") in
  Example.sent x ∈ handlers.Upstream x
  /\ http.URL (Example.sent x)
     = "https://lrs.example/xapi/activities/state?stateId=s"
  /\ http.BasicAuth (Example.sent x) = ("lrs-user", "lrs-pass")
  /\ http.ReqHeader (Example.sent x) !! "Authorization" = None.
Proof.
  intros x.
  assert (Hin : Example.sent x ∈ handlers.Upstream x) by (vm_compute; left).
  split; [exact Hin|].
  destruct (X15_forward_substitutes_credentials Scenario.anyRequestOK
              Scenario.lrsOK (Scenario.tenant "strict") Example.putState
              (Some "{}") (Example.sent x) Hin)
    as (_ & _ & Hurl & Hcreds & Hauth & _).
  split; [exact (Hurl "/activities/state" eq_refl)|].
  split; [exact Hcreds | exact Hauth].
Defined.

(** The protocol version 1.0.2 of the inbound request is kept, and the
    content type is copied; a request without version header is forwarded
    with version 1.0.3. *)
Lemma X16_forward_ensures_version_header_witness :
  let x := handlers.forwardToLRS Scenario.anyRequestOK Scenario.lrsOK
             (Scenario.tenant "strict") Example.putState (Some "{}") in
  let y := handlers.forwardToLRS Scenario.anyRequestOK Scenario.lrsOK
             (Scenario.tenant "strict") (Scenario.postStatements "{}")
             (Some "{}") in
  Example.sent x ∈ handlers.Upstream x
  /\ http.ReqHeader (Example.sent x) !! "X-Experience-Api-Version"
     = Some ["1.0.2"]
  /\ http.ReqHeader (Example.sent x) !! "Content-Type"
     = Some ["application/json"]
  /\ Example.sent y ∈ handlers.Upstream y
  /\ http.ReqHeader (Example.sent y) !! "X-Experience-Api-Version"
     = Some ["1.0.3"].
Proof.
  intros x y.
  assert (Hx : Example.sent x ∈ handlers.Upstream x) by (vm_compute; left).
  assert (Hy : Example.sent y ∈ handlers.Upstream y) by (vm_compute; left).
  split; [exact Hx|].
  destruct (X16_forward_ensures_version_header Scenario.anyRequestOK
              Scenario.lrsOK (Scenario.tenant "strict") Example.putState
              (Some "{}") (Example.sent x) Hx)
    as (_ & _ & _ & Hkept & Hcopy).
  split; [exact Hkept|].
  split; [rewrite (Hcopy "Content-Type") by discriminate; reflexivity|].
  split; [exact Hy|].
  exact (proj1 (proj2 (proj2 (proj2
           (X16_forward_ensures_version_header Scenario.anyRequestOK
              Scenario.lrsOK (Scenario.tenant "strict")
              (Scenario.postStatements "{}") (Some "{}") (Example.sent y)
              Hy))))).
Defined.

(** A PUT that [http.NewRequest] refuses is answered 500 and reaches no
    LRS; with the LRS out of reach, the request is sent and the answer is
    502; with the LRS answering, the answer is the one of the LRS. *)
Lemma X17_forward_relays_the_upstream_response_witness :
  let refused := handlers.forwardToLRS Example.noRequestOK Scenario.lrsOK
                   (Scenario.tenant "strict") Example.putState (Some "{}") in
  let failed := handlers.forwardToLRS Scenario.anyRequestOK Example.lrsDown
                  (Scenario.tenant "strict") Example.putState (Some "{}") in
  let relayed := handlers.forwardToLRS Scenario.anyRequestOK Scenario.lrsOK
                   (Scenario.tenant "strict") Example.putState (Some "{}") in
  (handlers.Upstream refused = []
   /\ handlers.Reply refused = http.Error "Failed to forward request" 500)
  /\ (exists req,
        handlers.Upstream failed = [req]
        /\ http.URL req = "https://lrs.example/xapi/activities/state?stateId=s"
        /\ handlers.Reply failed = http.Error "LRS request failed" 502)
  /\ (exists req,
        handlers.Upstream relayed = [req]
        /\ handlers.Reply relayed = http.mkResponse http.StatusOK ∅ "").
Proof.
  intros refused failed relayed. split; [|split].
  - exact (proj1 (X17_forward_relays_the_upstream_response
                    Example.noRequestOK Scenario.lrsOK
                    (Scenario.tenant "strict") Example.putState (Some "{}"))
             eq_refl).
  - destruct (proj2 (X17_forward_relays_the_upstream_response
                       Scenario.anyRequestOK Example.lrsDown
                       (Scenario.tenant "strict") Example.putState (Some "{}"))
                eq_refl)
      as (req & Hsent & _ & Hurl & _ & _ & Hdown).
    exists req. split; [exact Hsent|]. split; [exact Hurl|].
    exact (Hdown eq_refl).
  - destruct (proj2 (X17_forward_relays_the_upstream_response
                       Scenario.anyRequestOK Scenario.lrsOK
                       (Scenario.tenant "strict") Example.putState (Some "{}"))
                eq_refl)
      as (req & Hsent & _ & _ & _ & Hup & _).
    exists req. split; [exact Hsent|].
    exact (Hup _ eq_refl).
Defined.


(** Scenario S1: the learner's statement is forwarded with its body. *)
Lemma X19_statements_reach_upstream_only_when_admitted_witness :
  let body := Example.statementS1JSON in
  let r := Scenario.postStatements body in
  let x := handlers.ProxyStatements Scenario.fmtNothing Scenario.fmtNothing
             Scenario.decodesNever (Scenario.decodes body Scenario.statementS1)
             Scenario.anyRequestOK Scenario.lrsOK
             (Scenario.tenant "strict") Scenario.claimsS1 r in
  Example.sent x ∈ handlers.Upstream x
  /\ http.ReqBody (Example.sent x) = Some body.
Proof.
  intros body r x.
  assert (Hin : Example.sent x ∈ handlers.Upstream x) by (vm_compute; left).
  split; [exact Hin|].
  destruct (X19_statements_reach_upstream_only_when_admitted
              Scenario.fmtNothing Scenario.fmtNothing
              Scenario.decodesNever (Scenario.decodes body Scenario.statementS1)
              Scenario.anyRequestOK Scenario.lrsOK
              (Scenario.tenant "strict") Scenario.claimsS1 r (Example.sent x) Hin)
    as [(_ & b & statements & Hbody & _ & _ & Hsent)|(Hget & _)].
  - injection Hbody as <-. exact Hsent.
  - discriminate Hget.
Defined.

(** A read for the stranger's statements is denied, whether the agent
    parameter is repeated or a limit is added. *)
Lemma X20_read_decision_sees_three_first_values_witness :
  let v := validator.NewPermissionValidator "strict" in
  http.Get (http.Query Example.getTwoAgents) "agent"
    = http.Get (http.Query Example.getOneAgent) "agent"
  /\ handlers.proxyStatementsRead Scenario.anyRequestOK Scenario.lrsOK
       (Scenario.tenant "strict") Scenario.claimsOpenID v Example.getOneAgent
     = handlers.answer (http.Error "read denied: agent mismatch" 403).
Proof.
  intros v. split; [reflexivity|].
  apply (proj2 (X20_read_decision_sees_three_first_values
                  Scenario.anyRequestOK Scenario.lrsOK
                  (Scenario.tenant "strict") Scenario.claimsOpenID v
                  Example.getTwoAgents Example.getOneAgent
                  eq_refl eq_refl eq_refl)).
  reflexivity.
Defined.

(** A token issued by tenant A is refused under tenant B, which shares
    A's secret. *)
Lemma X23_issued_claims_are_bound_to_the_tenant_witness :
  let claims := handlers.newClaims (Scenario.tenant "strict") Example.clock
                  Example.clock Scenario.courseWriteTokenRequest in
  let parse := Scenario.parsesTo claims in
  http.Get (http.Header Scenario.getWithBadToken) "Authorization"
    = "Bearer " +:+ "garbage"
  /\ middleware.JWTAuthMiddleware parse Example.tenantB Scenario.getWithBadToken
     = middleware.Rejected (http.Error "Invalid token" 401).
Proof.
  intros claims parse. split; [reflexivity|].
  apply (proj2 (X23_issued_claims_are_bound_to_the_tenant parse
                  (Scenario.tenant "strict") Example.tenantB
                  Example.clock Example.clock Scenario.courseWriteTokenRequest
                  Scenario.getWithBadToken "garbage"
                  (jwt.mkToken (jwt.SigningMethodHMAC "HS256") (Some claims) true)
                  eq_refl eq_refl eq_refl eq_refl)).
  discriminate.
Defined.

(** A file without port and policy loads with port 8080 and the strict
    policy, and keeps its lifetime of ten minutes. *)
Lemma X24_load_fills_defaults_witness :
  let cfg := config.setDefaults Example.fileConfig in
  config.Load Example.readsFile Example.parsesFile Example.noExpansion
    "config.yaml" = inl cfg
  /\ ServerConfig.Port (Config.Server cfg) <> 0
  /\ AuthConfig.JWTTTLSeconds (Config.Auth cfg) <> 0
  /\ AuthConfig.PermissionPolicy (Config.Auth cfg) <> "".
Proof.
  intros cfg.
  assert (Hload : config.Load Example.readsFile Example.parsesFile
                    Example.noExpansion "config.yaml" = inl cfg) by reflexivity.
  split; [exact Hload|].
  destruct (X24_load_fills_defaults Example.readsFile Example.parsesFile
              Example.noExpansion "config.yaml" cfg Hload)
    as ((Hport & Httl & Hpolicy & _) & _).
  split; [exact Hport|]. split; [exact Httl | exact Hpolicy].
Defined.

(** The first lookup of acme.example loads and caches the tenant; the
    tenant is then served although the database has lost the host. *)
Lemma X27_database_lookup_caches_by_host_witness :
  store.databaseGetByHost Example.coldStore "acme.example"
    = (Example.warmStore, inl Example.acmeTenant)
  /\ store.databaseGetByHost
       (store.mkDatabase Example.emptyDB (store.cache Example.warmStore))
       "acme.example"
     = (store.mkDatabase Example.emptyDB (store.cache Example.warmStore),
        inl Example.acmeTenant).
Proof.
  assert (Hfirst : store.databaseGetByHost Example.coldStore "acme.example"
                   = (Example.warmStore, inl Example.acmeTenant))
    by (vm_compute; reflexivity).
  split; [exact Hfirst|].
  destruct (X27_database_lookup_caches_by_host Example.coldStore
              "acme.example" Example.warmStore (inl Example.acmeTenant) Hfirst)
    as (_ & _ & _ & Hsticky).
  exact (Hsticky Example.emptyDB).
Defined.

(** Deleting the tenant acme empties the cache of the warm store;
    deleting an unknown tenant, or deleting on a closed database, fails and
    leaves the store as it was. *)
Lemma X28_delete_tenant_invalidates_its_cache_entries_witness :
  store.DeleteTenant Example.warmStore "acme" = (Example.coldStore, None)
  /\ store.cache Example.coldStore !! "acme.example" = None
  /\ store.DeleteTenant Example.warmStore "ghost"
     = (Example.warmStore, Some "tenant not found: ghost")
  /\ store.DeleteTenant Example.closedStore "acme"
     = (Example.closedStore, Some "sql: database is closed").
Proof.
  assert (Hdelete : store.DeleteTenant Example.warmStore "acme"
                    = (Example.coldStore, None)) by (vm_compute; reflexivity).
  split; [exact Hdelete|]. split.
  { destruct (X28_delete_tenant_invalidates_its_cache_entries
                Example.warmStore "acme" Example.coldStore None Hdelete)
      as (_ & _ & _ & _ & Hcache).
    destruct (store.cache Example.coldStore !! "acme.example")
      as [tenant|] eqn:Hhit; [|reflexivity].
    apply Hcache in Hhit as [Hwas Hid].
    vm_compute in Hwas. injection Hwas as <-. exfalso. apply Hid.
    reflexivity. }
  split.
  - destruct (store.DeleteTenant Example.warmStore "ghost")
      as [s' err] eqn:Hghost.
    destruct (X28_delete_tenant_invalidates_its_cache_entries
                Example.warmStore "ghost" s' err Hghost)
      as (_ & Hnone & _ & Hstore).
    rewrite (Hnone eq_refl) in Hstore |- *. rewrite Hstore. reflexivity.
  - destruct (store.DeleteTenant Example.closedStore "acme")
      as [s' err] eqn:Hclosed.
    destruct (X28_delete_tenant_invalidates_its_cache_entries
                Example.closedStore "acme" s' err Hclosed)
      as (Hfails & _ & _ & Hstore).
    rewrite (Hfails _ eq_refl) in Hstore |- *. rewrite Hstore. reflexivity.
Defined.

(** The tenant acme loads from its rows. *)
Lemma X29_loaded_tenant_reflects_the_rows_witness :
  store.loadTenantConfig Example.coldStore "acme" = inl Example.acmeTenant
  /\ TenantConfig.TenantID Example.acmeTenant = "acme".
Proof.
  assert (Hload : store.loadTenantConfig Example.coldStore "acme"
                  = inl Example.acmeTenant) by (vm_compute; reflexivity).
  split; [exact Hload|].
  exact (proj1 (X29_loaded_tenant_reflects_the_rows Example.coldStore "acme"
                  Example.acmeTenant Hload)).
Defined.

(** With the single-tenant store, a token request with a configured key
    is answered by [IssueToken]. *)
Lemma X30_token_route_mints_behind_both_gates_witness :
  let tenantStore := store.mkSingle (Scenario.tenant "strict") in
  let body := Scenario.courseWriteTokenRequestJSON in
  let decode := Scenario.decodes body Scenario.courseWriteTokenRequest in
  let x := handlers.IssueToken decode Scenario.marshalToken Scenario.signs
             (Scenario.tenant "strict") Example.clock Example.clock
             (Scenario.postToken body) in
  handlers.authToken decode Scenario.marshalToken Scenario.signs tenantStore
    "lms.example" Example.clock Example.clock (Scenario.postToken body)
    = (tenantStore, x)
  /\ handlers.Upstream x = [].
Proof.
  intros tenantStore body decode x.
  assert (Hroute : handlers.authToken decode Scenario.marshalToken
                     Scenario.signs tenantStore "lms.example" Example.clock
                     Example.clock (Scenario.postToken body)
                   = (tenantStore, x)) by reflexivity.
  split; [exact Hroute|].
  exact (proj1 (X30_token_route_mints_behind_both_gates decode
                  Scenario.marshalToken Scenario.signs tenantStore
                  "lms.example" Example.clock Example.clock
                  (Scenario.postToken body) tenantStore x Hroute)).
Defined.
